(** * A shallow embedding of the fps_fuel game client

    The development follows the JavaScript sources:
    - [NetworkManager] embeds [src/NetworkManager.js]: the peer connection
      guard of the send operations, the dispatch of inbound messages and
      the respawn of the local player;
    - [Kinematics] embeds [Player.update] of the sliding variant of the
      player controller ([src/unnamed/part_003]): gravity, crouch and slide,
      friction, acceleration, jump, world boundary and floor collision;
    - [Combat] embeds [Player.shoot] and [Player.hitTarget].

    JavaScript numbers used for positions and velocities are modelled as
    real numbers; health and damage, which the game only ever changes by
    integer amounts, are modelled as integers. *)

From Stdlib Require Import ZArith Reals Lra Lia List Bool.
From Stdlib Require Import String.
Import ListNotations.

(** A [THREE.Vector3]. *)
Record vec3 := Vec3 { vx : R; vy : R; vz : R }.

(** * src/NetworkManager.js *)
Module NetworkManager.

Open Scope Z_scope.

(** The payloads exchanged over the data channel. [Unknown] stands for a
    payload whose [type] field is none of ['move'], ['shoot'], ['hit']. *)
Inductive message :=
| Move (pos : vec3) (rot_y : R) (health : Z)
| Shoot (pos dir : vec3)
| Hit (damage : Z)
| Unknown.

(** A PeerJS data connection: its [open] flag and what it transmitted. *)
Record connection := Connection { conn_open : bool; conn_sent : list message }.

(** The fields of a [NetworkManager] together with the parts of the player
    it reads and writes ([player.camera] and [player.velocity]). *)
Record state := State {
  conn : option connection;              (* this.conn *)
  health : Z;                            (* this.health *)
  remote_pos : vec3;                     (* this.remotePlayerMesh.position *)
  remote_rot_y : R;                      (* this.remotePlayerMesh.rotation.y *)
  cam_pos : vec3;                        (* this.player.camera.position *)
  cam_rot_y : R;                         (* this.player.camera.rotation.y *)
  velocity : vec3;                       (* this.player.velocity *)
  tracers : list (vec3 * vec3)           (* this.player.createTracer calls *)
}.

(** [this.conn.send(payload)], guarded by
    [if (!this.conn || !this.conn.open) return;]. *)
Definition send (payload : message) (s : state) : state :=
  match conn s with
  | None => s
  | Some c =>
      if negb (conn_open c) then s
      else {| conn := Some (Connection (conn_open c) (conn_sent c ++ [payload]));
              health := health s; remote_pos := remote_pos s;
              remote_rot_y := remote_rot_y s; cam_pos := cam_pos s;
              cam_rot_y := cam_rot_y s; velocity := velocity s;
              tracers := tracers s |}
  end.

Definition sendState (s : state) : state :=
  send (Move (cam_pos s) (cam_rot_y s) (health s)) s.

Definition sendShoot (pos dir : vec3) (s : state) : state :=
  send (Shoot pos dir) s.

Definition sendHit (s : state) : state :=
  send (Hit 20) s.

Definition set_health (h : Z) (s : state) : state :=
  {| conn := conn s; health := h; remote_pos := remote_pos s;
     remote_rot_y := remote_rot_y s; cam_pos := cam_pos s;
     cam_rot_y := cam_rot_y s; velocity := velocity s; tracers := tracers s |}.

(** [respawn()]: [(rx, rz)] are the two values returned by [Math.random()].
    The [alert] and the HUD update have no effect on the modelled state. *)
Definition respawn (rx rz : R) (s : state) : state :=
  {| conn := conn s; health := 100;
     remote_pos := remote_pos s; remote_rot_y := remote_rot_y s;
     cam_pos := Vec3 (rx * 20 - 10)%R (17 / 10)%R (rz * 20 - 10)%R;
     cam_rot_y := cam_rot_y s; velocity := Vec3 0 0 0;
     tracers := tracers s |}.

(** [onReceiveData(data)]; [rnd] supplies the values of [Math.random()]
    used if the player respawns. *)
Definition onReceiveData (rnd : R * R) (data : message) (s : state) : state :=
  match data with
  | Move pos rot_y _ =>
      {| conn := conn s; health := health s;
         remote_pos := Vec3 (vx pos) (vy pos - 8 / 10)%R (vz pos);
         remote_rot_y := rot_y; cam_pos := cam_pos s;
         cam_rot_y := cam_rot_y s; velocity := velocity s;
         tracers := tracers s |}
  | Shoot pos dir =>
      {| conn := conn s; health := health s; remote_pos := remote_pos s;
         remote_rot_y := remote_rot_y s; cam_pos := cam_pos s;
         cam_rot_y := cam_rot_y s; velocity := velocity s;
         tracers := tracers s ++ [(pos, dir)] |}
  | Hit damage =>
      let s1 := set_health (health s - damage) s in
      if health s1 <=? 0 then respawn (fst rnd) (snd rnd) s1 else s1
  | Unknown => s
  end.

(** Delivering a sequence of messages, each with its random draws. *)
Fixpoint receive_all (ms : list ((R * R) * message)) (s : state) : state :=
  match ms with
  | [] => s
  | (rnd, m) :: ms' => receive_all ms' (onReceiveData rnd m s)
  end.

(** The health values the handler of a Hit message computes: the value
    after the subtraction (logged and shown on the HUD) and the final one. *)
Definition hit_health_after_subtraction (damage : Z) (s : state) : Z :=
  health s - damage.

(** The state built by the constructor: [this.conn = null],
    [this.health = 100] and the remote mesh parked at [(0, -10, 0)]. *)
Definition initial (cam : vec3) : state :=
  {| conn := None; health := 100; remote_pos := Vec3 0 (-10) 0;
     remote_rot_y := 0%R; cam_pos := cam; cam_rot_y := 0%R;
     velocity := Vec3 0 0 0; tracers := [] |}.

Close Scope Z_scope.
End NetworkManager.

(** * Player.update of src/unnamed/part_003 *)
Module Kinematics.

Open Scope R_scope.

(** [this.jumpForce], [this.gravity], [this.friction]. *)
Definition jumpForce : R := 27 / 2.
Definition gravity : R := 36.
Definition friction : R := 7.

(** [Number(b)] for a boolean key flag. *)
Definition num (b : bool) : R := if b then 1 else 0.

(** [v.addScaledVector(w, s)]. *)
Definition addScaled (v w : vec3) (s : R) : vec3 :=
  Vec3 (vx v + vx w * s) (vy v + vy w * s) (vz v + vz w * s).

Definition length (v : vec3) : R := sqrt (vx v * vx v + vy v * vy v + vz v * vz v).

(** [v.normalize()], which is [v.divideScalar(v.length() || 1)]. *)
Definition normalize (v : vec3) : vec3 :=
  let l := length v in
  let d := if Req_dec_T l 0 then 1 else l in
  Vec3 (vx v / d) (vy v / d) (vz v / d).

(** [new THREE.Vector3().crossVectors(a, b)]. *)
Definition cross (a b : vec3) : vec3 :=
  Vec3 (vy a * vz b - vz a * vy b) (vz a * vx b - vx a * vz b)
       (vx a * vy b - vy a * vx b).

(** [Math.atan2(y, x)] (signed zeros aside). *)
Definition atan2 (y x : R) : R :=
  if Rlt_dec 0 x then atan (y / x)
  else if Rlt_dec x 0 then
    (if Rle_dec 0 y then atan (y / x) + PI else atan (y / x) - PI)
  else if Rlt_dec 0 y then PI / 2
  else if Rlt_dec y 0 then - (PI / 2)
  else 0.

(** [this.keys]. *)
Record keys := Keys {
  forward : bool; backward : bool; left : bool; right : bool;
  jump : bool; shift : bool }.

(** [onKey(e, isDown)]: the [switch (e.code)] over the key codes. *)
Definition onKey (code : String.string) (isDown : bool) (k : keys) : keys :=
  let '(Keys fw bw lf rt jp sh) := k in
  if String.eqb code "KeyW"%string then Keys isDown bw lf rt jp sh
  else if String.eqb code "KeyS"%string then Keys fw isDown lf rt jp sh
  else if String.eqb code "KeyA"%string then Keys fw bw isDown rt jp sh
  else if String.eqb code "KeyD"%string then Keys fw bw lf isDown jp sh
  else if String.eqb code "Space"%string then Keys fw bw lf rt isDown sh
  else if String.eqb code "ShiftLeft"%string then Keys fw bw lf rt jp isDown
  else if String.eqb code "ShiftRight"%string then Keys fw bw lf rt jp isDown
  else k.

(** What a tick reads outside the player: [this.controls.isLocked], the
    keys, [this.camera.getWorldDirection()] and [this.camera.up]. *)
Record frame := Frame {
  isLocked : bool; pressed : keys; cam_dir : vec3; cam_up : vec3 }.

(** The player fields [update] reads and writes; [position] is
    [this.camera.position], [gun_visible] is [this.gun.visible]. *)
Record player := Player {
  position : vec3;
  velocity : vec3;
  onGround : bool;
  isCrouching : bool;
  isSliding : bool;
  slideTimer : R;
  slideDirection : vec3;
  gun_visible : bool }.

Definition set_velocity (v : vec3) (p : player) : player :=
  Player (position p) v (onGround p) (isCrouching p) (isSliding p)
    (slideTimer p) (slideDirection p) (gun_visible p).
Definition set_position (x : vec3) (p : player) : player :=
  Player x (velocity p) (onGround p) (isCrouching p) (isSliding p)
    (slideTimer p) (slideDirection p) (gun_visible p).
Definition set_onGround (b : bool) (p : player) : player :=
  Player (position p) (velocity p) b (isCrouching p) (isSliding p)
    (slideTimer p) (slideDirection p) (gun_visible p).
Definition set_isCrouching (b : bool) (p : player) : player :=
  Player (position p) (velocity p) (onGround p) b (isSliding p)
    (slideTimer p) (slideDirection p) (gun_visible p).
Definition set_isSliding (b : bool) (p : player) : player :=
  Player (position p) (velocity p) (onGround p) (isCrouching p) b
    (slideTimer p) (slideDirection p) (gun_visible p).
Definition set_slideTimer (t : R) (p : player) : player :=
  Player (position p) (velocity p) (onGround p) (isCrouching p) (isSliding p)
    t (slideDirection p) (gun_visible p).
Definition set_slideDirection (d : vec3) (p : player) : player :=
  Player (position p) (velocity p) (onGround p) (isCrouching p) (isSliding p)
    (slideTimer p) d (gun_visible p).
Definition set_gun_visible (b : bool) (p : player) : player :=
  Player (position p) (velocity p) (onGround p) (isCrouching p) (isSliding p)
    (slideTimer p) (slideDirection p) b.

(** [Math.sqrt(this.velocity.x ** 2 + this.velocity.z ** 2)]. *)
Definition horizontalSpeed (v : vec3) : R := sqrt (vx v * vx v + vz v * vz v).

(** Apply Gravity. *)
Definition gravity_phase (delta : R) (p : player) : player :=
  let v := velocity p in
  set_velocity (Vec3 (vx v) (vy v - gravity * delta) (vz v)) p.

(** Movement Direction. *)
Definition input_direction (k : keys) : vec3 :=
  normalize (Vec3 (num (right k) - num (left k)) 0
                  (num (forward k) - num (backward k))).

(** Crouching & Sliding Logic; returns the player and [targetHeight]. *)
Definition crouch_slide_phase (k : keys) (p : player) : player * R :=
  let headHeight := 17 / 10 in
  let crouchHeight := 1 in
  if shift k then
    let p :=
      if isCrouching p then p
      else
        let p :=
          if onGround p && (if Rlt_dec 12 (horizontalSpeed (velocity p))
                            then true else false) && negb (isSliding p)
          then
            let sdir := normalize (Vec3 (vx (velocity p)) 0 (vz (velocity p))) in
            set_velocity (addScaled (velocity p) sdir 18)
              (set_slideDirection sdir
                (set_slideTimer (1 / 2) (set_isSliding true p)))
          else p in
        set_isCrouching true p in
    (p, crouchHeight)
  else (set_isSliding false (set_isCrouching false p), headHeight).

(** Sliding update. *)
Definition slide_update_phase (delta : R) (p : player) : player :=
  if isSliding p then
    let p := set_slideTimer (slideTimer p - delta) p in
    if Rle_dec (slideTimer p) 0 then set_isSliding false p
    else set_velocity (addScaled (velocity p) (slideDirection p) (35 * delta)) p
  else p.

(** [frictionFactor]: [this.friction], or [0.5] while sliding. *)
Definition frictionFactor (p : player) : R :=
  if isSliding p then 1 / 2 else friction.

(** Apply Friction (Adjusted for Slide and Jump). *)
Definition friction_phase (delta : R) (p : player) : player :=
  if onGround p then
    let v := velocity p in
    let k := 1 - frictionFactor p * delta in
    set_velocity (Vec3 (vx v * k) (vy v) (vz v * k)) p
  else p.

(** Acceleration. *)
Definition accel_phase (f : frame) (direction : vec3) (delta : R) (p : player)
  : player :=
  if negb (if Req_dec_T (vx direction) 0 then true else false)
     || negb (if Req_dec_T (vz direction) 0 then true else false) then
    let c := cam_dir f in
    let camDir := normalize (Vec3 (vx c) 0 (vz c)) in
    let camSide := normalize (cross (cam_up f) camDir) in
    let accel0 := if onGround p then 160 else 100 in
    let accel := if isCrouching p && negb (isSliding p) then accel0 * (4 / 10)
                 else accel0 in
    let v := addScaled (velocity p) camDir (vz direction * accel * delta) in
    let v := addScaled v camSide (- vx direction * accel * delta) in
    set_velocity v p
  else p.

(** Jump. *)
Definition jump_phase (k : keys) (p : player) : player :=
  if jump k && onGround p then
    let v := velocity p in
    set_isSliding false
      (set_onGround false (set_velocity (Vec3 (vx v) jumpForce (vz v)) p))
  else p.

(** World Boundaries (100 units from origin). *)
Definition horizontal_dist (x : vec3) : R := sqrt (vx x * vx x + vz x * vz x).

Definition clamp_world_boundary (nextPos : vec3) : vec3 :=
  let dist := horizontal_dist nextPos in
  if Rlt_dec 100 dist then
    let angle := atan2 (vz nextPos) (vx nextPos) in
    Vec3 (cos angle * 100) (vy nextPos) (sin angle * 100)
  else nextPos.

(** Apply Velocity & Floor Collision. *)
Definition move_phase (delta targetHeight : R) (p : player) : player :=
  let nextPos := addScaled (position p) (velocity p) delta in
  let nextPos := clamp_world_boundary nextPos in
  if Rlt_dec (vy nextPos) targetHeight then
    let v := velocity p in
    set_position (Vec3 (vx nextPos) targetHeight (vz nextPos))
      (set_onGround true (set_velocity (Vec3 (vx v) 0 (vz v)) p))
  else set_position nextPos (set_onGround false p).

(** [update(delta)]. *)
Definition update (f : frame) (delta : R) (p : player) : player :=
  if negb (isLocked f) then set_gun_visible false p
  else
    let p := set_gun_visible true p in
    let p := gravity_phase delta p in
    let direction := input_direction (pressed f) in
    let '(p, targetHeight) := crouch_slide_phase (pressed f) p in
    let p := slide_update_phase delta p in
    let p := friction_phase delta p in
    let p := accel_phase f direction delta p in
    let p := jump_phase (pressed f) p in
    move_phase delta targetHeight p.

(** Running the render loop over a sequence of (frame, delta) ticks. *)
Fixpoint run (ticks : list (frame * R)) (p : player) : player :=
  match ticks with
  | [] => p
  | (f, delta) :: ts => run ts (update f delta p)
  end.

Close Scope R_scope.
End Kinematics.

(** * Player.shoot and Player.hitTarget *)
Module Combat.

Open Scope Z_scope.

(** The object of one entry of [raycaster.intersectObjects(scene.children)]:
    a practice target ([userData.isTarget = true]), the remote player's mesh
    ([this.network.remotePlayerMesh]), or anything else in the scene (floor,
    grid, obstacles, the remote mesh's eyes, ...). *)
Inductive object :=
| TargetObj (id : nat)
| RemoteMesh
| OtherObj (id : nat).

(** A practice target: [userData.health] and [position.y]. *)
Record target := Target { t_health : Z; t_y : R }.

(** The observable effects of a shot, in the order they happen. *)
Inductive effect :=
| ShootSound
| Tracer (start dir : vec3)
| HitSound
| Hitmarker
| KillNotification
| ScheduleTargetReset (id : nat)     (* setTimeout(..., 3000) *)
| NetSendHit                         (* this.network.sendHit() *)
| NetSendShoot (pos dir : vec3).     (* this.network.sendShoot(...) *)

Definition targets := nat -> target.

Definition upd (ts : targets) (i : nat) (t : target) : targets :=
  fun j => if Nat.eqb j i then t else ts j.

(** [hitTarget(obj)]. *)
Definition hitTarget (i : nat) (ts : targets) : targets * list effect :=
  let h := t_health (ts i) - 20 in
  if h <=? 0 then
    (upd ts i (Target h (-5)%R), [HitSound; Hitmarker; KillNotification;
                                  ScheduleTargetReset i])
  else (upd ts i (Target h (t_y (ts i))), [HitSound; Hitmarker]).

(** A practice target as [addPracticeTargets] (src/main.js) creates it:
    [userData.health = 100] at height [1]. *)
Definition practice_target : target := Target 100 1%R.

(** The callback of the reset timer scheduled by [hitTarget]:
    [obj.position.y = 1; obj.userData.health = 100;]. *)
Definition resetTarget (i : nat) (ts : targets) : targets :=
  upd ts i (Target 100 1%R).

(** The [for (let intersect of intersects)] loop; [network] says whether
    [this.network] is set. *)
Fixpoint scan (network : bool) (intersects : list object) (ts : targets)
  : targets * list effect :=
  match intersects with
  | [] => (ts, [])
  | TargetObj i :: _ => hitTarget i ts
  | RemoteMesh :: rest =>
      if network then (ts, [Hitmarker; NetSendHit]) else scan network rest ts
  | OtherObj _ :: rest => scan network rest ts
  end.

(** [shoot()]: [origin] is [this.camera.position], [dir] the view
    direction, [intersects] the raycaster's result, sorted by distance. *)
Definition shoot (network : bool) (origin dir : vec3) (intersects : list object)
  (ts : targets) : targets * list effect :=
  let '(ts', hits) := scan network intersects ts in
  (ts', [ShootSound; Tracer (Kinematics.addScaled origin dir 1) dir] ++ hits ++
        (if network then [NetSendShoot origin dir] else [])).

Close Scope Z_scope.
End Combat.

(** * Properties of the state sync protocol *)
Module NetworkManagerFacts.

Import NetworkManager.
Open Scope Z_scope.

Definition v0 : vec3 := Vec3 0 (17 / 10) 0.

Example hit_once : health (onReceiveData (0%R, 0%R) (Hit 20) (initial v0)) = 80.
Proof. reflexivity. Qed.

(** Damage carried by a payload is non-negative (trivially so for the
    payloads other than Hit). *)
Definition damage_nonneg (m : message) : Prop :=
  match m with Hit d => 0 <= d | _ => True end.

(** ** C1 *)

(** C1 (counterexample): the handler subtracts whatever damage the Hit
    payload carries and never clamps; a Hit with damage -20 received at full
    health leaves the health at 120, outside [0,100]. *)
Lemma hit_negative_damage_exceeds_100 :
  health (onReceiveData (0%R, 0%R) (Hit (-20)) (initial v0)) = 120 /\
  ~ (0 <= health (onReceiveData (0%R, 0%R) (Hit (-20)) (initial v0)) <= 100).
Proof. simpl. split; [reflexivity | lia]. Qed.

(** Along any sequence of messages whose Hit damages are non-negative, a
    health in [0,100] stays in [0,100]. *)
Lemma hit_sequence_bounds ms s :
  0 <= health s <= 100 ->
  Forall (fun rm => damage_nonneg (snd rm)) ms ->
  0 <= health (receive_all ms s) <= 100.
Proof.
  revert s. induction ms as [| [rnd m] ms IH]; intros s Hs Hall; simpl.
  - exact Hs.
  - inversion Hall as [| ? ? Hm Hrest]; subst. simpl in Hm.
    apply IH; [| exact Hrest].
    destruct m as [pos rot h | pos dir | d |]; simpl; try exact Hs.
    destruct (health s - d <=? 0) eqn:E; simpl.
    + lia.
    + apply Z.leb_gt in E. simpl in Hm. lia.
Qed.

(** C1 (as amended): on a Hit of damage [d] the receiver computes
    [health - d]. If the result is above 0 exactly that value becomes the
    new health, with no upper bound (above 100 when [d] is negative), and
    the player is neither moved nor slowed; if it is at most 0 the
    player respawns: health 100, camera at the random spawn point
    [(rx*20-10, 1.7, rz*20-10)], velocity zero. Hence along any sequence of
    messages whose Hit damages are non-negative, a health in [0,100] stays
    in [0,100]. *)
Theorem hit_unclamped_respawn_bounds rnd d s ms :
  let s' := onReceiveData rnd (Hit d) s in
  (0 < health s - d ->
   health s' = health s - d /\ cam_pos s' = cam_pos s /\ velocity s' = velocity s) /\
  (health s - d <= 0 ->
   health s' = 100 /\
   cam_pos s' = Vec3 (fst rnd * 20 - 10)%R (17 / 10)%R (snd rnd * 20 - 10)%R /\
   velocity s' = Vec3 0 0 0) /\
  (0 <= health s <= 100 ->
   Forall (fun rm => damage_nonneg (snd rm)) ms ->
   0 <= health (receive_all ms s) <= 100).
Proof.
  intros s'. unfold s'. simpl.
  destruct (Z.leb_spec (health s - d) 0) as [Hle | Hgt]; simpl.
  - split; [intros H; lia |]. split; [intros _; repeat split |].
    exact (hit_sequence_bounds ms s).
  - split; [intros _; repeat split |]. split; [intros H; lia |].
    exact (hit_sequence_bounds ms s).
Qed.

(** At 20 health, a Hit of 20 is lethal and respawns the player at the
    spawn point drawn by [(rx, rz) = (1/2, 1/2)], the origin. *)
Lemma hit_unclamped_respawn_bounds_witness :
  health (set_health 20 (initial v0)) - 20 <= 0 /\
  health (onReceiveData ((1 / 2)%R, (1 / 2)%R) (Hit 20) (set_health 20 (initial v0))) = 100 /\
  cam_pos (onReceiveData ((1 / 2)%R, (1 / 2)%R) (Hit 20) (set_health 20 (initial v0))) =
    Vec3 (1 / 2 * 20 - 10)%R (17 / 10)%R (1 / 2 * 20 - 10)%R.
Proof.
  assert (H : health (set_health 20 (initial v0)) - 20 <= 0) by (simpl; lia).
  destruct (proj1 (proj2 (hit_unclamped_respawn_bounds ((1 / 2)%R, (1 / 2)%R) 20
                            (set_health 20 (initial v0)) [])) H) as (H1 & H2 & _).
  split; [exact H |]. split; [exact H1 | exact H2].
Defined.

(** ** C3 *)

(** C3: from health 100, five Hit messages of damage 20: the first four
    leave 80, 60, 40, 20 without respawning (position and velocity
    untouched); the fifth brings the health to exactly 0, which triggers the
    respawn: health 100, the player moved to the random spawn point
    [(rx*20-10, 1.7, rz*20-10)] drawn by [Math.random()], velocity zero. *)
Theorem five_hits_of_20_respawn s r1 r2 r3 r4 rx rz :
  health s = 100 ->
  let s1 := onReceiveData r1 (Hit 20) s in
  let s2 := onReceiveData r2 (Hit 20) s1 in
  let s3 := onReceiveData r3 (Hit 20) s2 in
  let s4 := onReceiveData r4 (Hit 20) s3 in
  let s5 := onReceiveData (rx, rz) (Hit 20) s4 in
  health s1 = 80 /\ health s2 = 60 /\ health s3 = 40 /\ health s4 = 20 /\
  cam_pos s4 = cam_pos s /\ velocity s4 = velocity s /\
  hit_health_after_subtraction 20 s4 = 0 /\
  s5 = respawn rx rz (set_health 0 s4) /\
  health s5 = 100 /\
  cam_pos s5 = Vec3 (rx * 20 - 10)%R (17 / 10)%R (rz * 20 - 10)%R /\
  velocity s5 = Vec3 0 0 0.
Proof.
  intros H. destruct s as [c h rp rr cp cr v tr]; simpl in H; subst h.
  repeat split; reflexivity.
Qed.

Lemma five_hits_of_20_respawn_witness :
  health (initial v0) = 100 /\
  health (onReceiveData (0%R, 0%R) (Hit 20)
    (onReceiveData (0%R, 0%R) (Hit 20)
      (onReceiveData (0%R, 0%R) (Hit 20)
        (onReceiveData (0%R, 0%R) (Hit 20)
          (onReceiveData (0%R, 0%R) (Hit 20) (initial v0)))))) = 100.
Proof.
  assert (H : health (initial v0) = 100) by reflexivity.
  split; [exact H |].
  destruct (five_hits_of_20_respawn (initial v0) (0%R, 0%R) (0%R, 0%R)
              (0%R, 0%R) (0%R, 0%R) 0%R 0%R H)
    as (_ & _ & _ & _ & _ & _ & _ & _ & Hh & _).
  exact Hh.
Defined.

(** ** C8 *)

(** C8: a Move payload overwrites the remote actor's position and yaw
    wholesale, so delivering the same payload twice gives the state reached
    after the first delivery. *)
Theorem move_idempotent rnd1 rnd2 pos rot h s :
  onReceiveData rnd2 (Move pos rot h) (onReceiveData rnd1 (Move pos rot h) s) =
  onReceiveData rnd1 (Move pos rot h) s.
Proof. destruct s; reflexivity. Qed.

(** ** C9 *)

(** The connection is absent ([this.conn] is null) or not open. *)
Definition not_connected (s : state) : Prop :=
  conn s = None \/ exists c, conn s = Some c /\ conn_open c = false.

(** C9: with no open connection, [sendState], [sendShoot] and [sendHit]
    return at their guard: nothing is appended to the connection and no
    field of the state changes. *)
Theorem send_without_open_connection_noop s :
  not_connected s ->
  sendState s = s /\ (forall pos dir, sendShoot pos dir s = s) /\ sendHit s = s.
Proof.
  intros [H | (c & H & Ho)]; unfold sendState, sendShoot, sendHit, send;
    rewrite H; [| rewrite Ho]; simpl; repeat split; reflexivity.
Qed.

Lemma send_without_open_connection_noop_witness :
  not_connected (initial v0) /\ sendHit (initial v0) = initial v0.
Proof.
  assert (H : not_connected (initial v0)) by (left; reflexivity).
  split; [exact H |].
  exact (proj2 (proj2 (send_without_open_connection_noop _ H))).
Defined.

(** With an open connection the same calls do transmit. *)
Example send_open_transmits :
  conn (sendHit (set_health 100 {| conn := Some (Connection true []);
    health := 100; remote_pos := v0; remote_rot_y := 0%R; cam_pos := v0;
    cam_rot_y := 0%R; velocity := v0; tracers := [] |}))
  = Some (Connection true [Hit 20]).
Proof. reflexivity. Qed.

Close Scope Z_scope.
End NetworkManagerFacts.

(** * Properties of the player controller *)
Module KinematicsFacts.

Import Kinematics.
Open Scope R_scope.

(** ** Phase lemmas *)

Lemma update_unlocked f delta p :
  isLocked f = false -> update f delta p = set_gun_visible false p.
Proof. intros H. unfold update. rewrite H. reflexivity. Qed.

Lemma update_locked f delta p :
  isLocked f = true ->
  update f delta p =
  let p1 := gravity_phase delta (set_gun_visible true p) in
  let direction := input_direction (pressed f) in
  let '(p2, targetHeight) := crouch_slide_phase (pressed f) p1 in
  move_phase delta targetHeight
    (jump_phase (pressed f)
      (accel_phase f direction delta
        (friction_phase delta (slide_update_phase delta p2)))).
Proof. intros H. unfold update. rewrite H. reflexivity. Qed.

Lemma input_direction_none k :
  forward k = false -> backward k = false -> left k = false -> right k = false ->
  vx (input_direction k) = 0 /\ vz (input_direction k) = 0.
Proof.
  intros H1 H2 H3 H4. unfold input_direction, normalize.
  rewrite H1, H2, H3, H4. simpl. unfold num. split; unfold Rdiv; ring.
Qed.

Lemma accel_phase_no_input f d delta p :
  vx d = 0 -> vz d = 0 -> accel_phase f d delta p = p.
Proof.
  intros Hx Hz. unfold accel_phase. rewrite Hx, Hz.
  destruct (Req_dec_T 0 0) as [_ | n]; [reflexivity | congruence].
Qed.

Lemma crouch_slide_no_shift k p :
  shift k = false ->
  crouch_slide_phase k p = (set_isSliding false (set_isCrouching false p), 17 / 10).
Proof. intros H. unfold crouch_slide_phase. rewrite H. reflexivity. Qed.

Lemma jump_phase_velocity_xz k p :
  vx (velocity (jump_phase k p)) = vx (velocity p) /\
  vz (velocity (jump_phase k p)) = vz (velocity p).
Proof. unfold jump_phase. destruct (jump k && onGround p); split; reflexivity. Qed.

Lemma clamp_world_boundary_y q : vy (clamp_world_boundary q) = vy q.
Proof. unfold clamp_world_boundary. destruct (Rlt_dec _ _); reflexivity. Qed.

Lemma move_phase_velocity_xz delta th p :
  vx (velocity (move_phase delta th p)) = vx (velocity p) /\
  vz (velocity (move_phase delta th p)) = vz (velocity p).
Proof. unfold move_phase. destruct (Rlt_dec _ _); split; reflexivity. Qed.

(** With the controls locked, no movement key, crouch released and the
    player on the ground, a tick multiplies the horizontal velocity by
    [1 - friction * delta] (the standard friction, whatever [delta]). *)
Lemma update_grounded_idle_velocity f delta p :
  isLocked f = true ->
  forward (pressed f) = false -> backward (pressed f) = false ->
  left (pressed f) = false -> right (pressed f) = false ->
  shift (pressed f) = false -> onGround p = true ->
  vx (velocity (update f delta p)) = vx (velocity p) * (1 - friction * delta) /\
  vz (velocity (update f delta p)) = vz (velocity p) * (1 - friction * delta).
Proof.
  intros Hl H1 H2 H3 H4 Hs Hg.
  rewrite (update_locked _ _ _ Hl). cbv zeta.
  rewrite (crouch_slide_no_shift _ _ Hs).
  destruct (input_direction_none _ H1 H2 H3 H4) as [Dx Dz].
  rewrite (accel_phase_no_input _ _ _ _ Dx Dz).
  destruct (move_phase_velocity_xz delta (17 / 10)
              (jump_phase (pressed f)
                 (friction_phase delta (slide_update_phase delta
                    (set_isSliding false (set_isCrouching false
                       (gravity_phase delta (set_gun_visible true p)))))))) as [Mx Mz].
  rewrite Mx, Mz.
  destruct (jump_phase_velocity_xz (pressed f)
              (friction_phase delta (slide_update_phase delta
                 (set_isSliding false (set_isCrouching false
                    (gravity_phase delta (set_gun_visible true p))))))) as [Jx Jz].
  rewrite Jx, Jz.
  destruct p as [pos v g c sl t sd gv]; simpl in Hg; subst g.
  split; reflexivity.
Qed.

(** ** C10 *)

(** C10: while the pointer controls are not locked, [update] only hides the
    gun: position, velocity, Grounded flag, crouch and slide state keep
    their values, so no gravity, friction or acceleration is applied. *)
Theorem update_unlocked_keeps_kinematics f delta p :
  isLocked f = false ->
  let p' := update f delta p in
  position p' = position p /\ velocity p' = velocity p /\
  onGround p' = onGround p /\ isCrouching p' = isCrouching p /\
  isSliding p' = isSliding p /\ slideTimer p' = slideTimer p /\
  slideDirection p' = slideDirection p.
Proof.
  intros H p'. unfold p'. rewrite (update_unlocked _ _ _ H).
  destruct p; repeat split; reflexivity.
Qed.

Definition no_keys : keys := Keys false false false false false false.
Definition up : vec3 := Vec3 0 1 0.

Lemma update_unlocked_keeps_kinematics_witness :
  isLocked (Frame false no_keys (Vec3 0 0 (-1)) up) = false /\
  velocity (update (Frame false no_keys (Vec3 0 0 (-1)) up) (1 / 60)
              (Player (Vec3 0 (17 / 10) 0) (Vec3 5 0 0) true false false 0
                      (Vec3 0 0 0) false))
  = Vec3 5 0 0.
Proof.
  assert (H : isLocked (Frame false no_keys (Vec3 0 0 (-1)) up) = false)
    by reflexivity.
  split; [exact H |].
  exact (proj1 (proj2 (update_unlocked_keeps_kinematics _ (1 / 60)
    (Player (Vec3 0 (17 / 10) 0) (Vec3 5 0 0) true false false 0
            (Vec3 0 0 0) false) H))).
Defined.

(** ** C4 *)

(** A standing player on the floor, moving along +x at 10 units/s. *)
Definition idle_frame : frame := Frame true no_keys (Vec3 0 0 (-1)) up.
Definition grounded_at_10 : player :=
  Player (Vec3 0 (17 / 10) 0) (Vec3 10 0 0) true false false 0 (Vec3 0 0 0) true.

(** C4 (counterexample): the damping factor [1 - 7 * delta] is not bounded
    below; on a 0.3 s frame with no input on the ground the horizontal
    velocity goes from +10 to -11: it reverses sign and the speed grows. *)
Lemma friction_long_frame_reverses :
  vx (velocity (update idle_frame (3 / 10) grounded_at_10)) = -11 /\
  horizontalSpeed (velocity grounded_at_10) <
  horizontalSpeed (velocity (update idle_frame (3 / 10) grounded_at_10)).
Proof.
  destruct (update_grounded_idle_velocity idle_frame (3 / 10) grounded_at_10
              eq_refl eq_refl eq_refl eq_refl eq_refl eq_refl eq_refl) as [Hx Hz].
  simpl in Hx, Hz. unfold friction in Hx, Hz.
  assert (Ex : vx (velocity (update idle_frame (3 / 10) grounded_at_10)) = -11)
    by (rewrite Hx; lra).
  assert (Ez : vz (velocity (update idle_frame (3 / 10) grounded_at_10)) = 0)
    by (rewrite Hz; lra).
  split; [exact Ex |].
  unfold horizontalSpeed at 2. rewrite Ex, Ez.
  unfold horizontalSpeed; simpl.
  apply sqrt_lt_1; lra.
Qed.

(** C4 (as amended): with the controls locked, no movement key, crouch
    released, the player Grounded and [0 < delta < 1/7] (the inverse of the
    friction coefficient 7), a tick scales the horizontal velocity by
    [1 - 7 * delta], which lies in (0,1): the horizontal speed strictly
    decreases while it is non-zero, and neither component changes sign. *)
Theorem friction_decay_grounded_idle f delta p :
  isLocked f = true ->
  forward (pressed f) = false -> backward (pressed f) = false ->
  left (pressed f) = false -> right (pressed f) = false ->
  shift (pressed f) = false -> onGround p = true ->
  0 < delta < 1 / friction ->
  let v := velocity p in
  let v' := velocity (update f delta p) in
  vx v' = (1 - friction * delta) * vx v /\
  vz v' = (1 - friction * delta) * vz v /\
  0 < 1 - friction * delta < 1 /\
  horizontalSpeed v' = (1 - friction * delta) * horizontalSpeed v /\
  (0 < horizontalSpeed v -> horizontalSpeed v' < horizontalSpeed v) /\
  0 <= vx v' * vx v /\ 0 <= vz v' * vz v /\
  (vx v' = 0 <-> vx v = 0) /\ (vz v' = 0 <-> vz v = 0).
Proof.
  intros Hl H1 H2 H3 H4 Hs Hg Hd v v'.
  destruct (update_grounded_idle_velocity f delta p Hl H1 H2 H3 H4 Hs Hg)
    as [Hx Hz].
  fold v' in Hx, Hz. fold v in Hx, Hz.
  unfold friction in *.
  assert (Hk : 0 < 1 - 7 * delta < 1).
  { destruct Hd as [Hd1 Hd2].
    apply (Rmult_lt_compat_l 7) in Hd2; [| lra].
    replace (7 * (1 / 7)) with 1 in Hd2 by field. lra. }
  assert (Hv' : v' = Vec3 (vx v * (1 - 7 * delta)) (vy v') (vz v * (1 - 7 * delta))).
  { destruct v' as [a b c]; simpl in *; subst; reflexivity. }
  assert (Hsp : horizontalSpeed v' = (1 - 7 * delta) * horizontalSpeed v).
  { rewrite Hv'. unfold horizontalSpeed; simpl.
    replace (vx v * (1 - 7 * delta) * (vx v * (1 - 7 * delta)) +
             vz v * (1 - 7 * delta) * (vz v * (1 - 7 * delta)))
      with (((1 - 7 * delta) * (1 - 7 * delta)) * (vx v * vx v + vz v * vz v))
      by ring.
    rewrite sqrt_mult_alt by nra. rewrite sqrt_square by lra. reflexivity. }
  rewrite Hx, Hz.
  split; [ring |]. split; [ring |]. split; [exact Hk |].
  split; [exact Hsp |].
  split; [intros Hpos; rewrite Hsp; nra |].
  split; [nra |]. split; [nra |].
  split; split; intros E; nra.
Qed.

Lemma friction_decay_grounded_idle_witness :
  let v' := velocity (update idle_frame (1 / 60) grounded_at_10) in
  vx v' = (1 - friction * (1 / 60)) * 10.
Proof.
  assert (Hd : 0 < 1 / 60 < 1 / friction) by (unfold friction; lra).
  destruct (friction_decay_grounded_idle idle_frame (1 / 60) grounded_at_10
              eq_refl eq_refl eq_refl eq_refl eq_refl eq_refl eq_refl Hd)
    as [Hx _].
  exact Hx.
Defined.

(** ** C5 *)

Lemma sqrt_one_plus_ratio x z :
  x <> 0 -> sqrt (1 + (z / x)²) = sqrt (x * x + z * z) / Rabs x.
Proof.
  intros Hx. assert (Ha : 0 < Rabs x) by (apply Rabs_pos_lt; exact Hx).
  apply sqrt_lem_1.
  - unfold Rsqr. nra.
  - apply Rmult_le_pos; [apply sqrt_pos | left; apply Rinv_0_lt_compat; lra].
  - assert (Hs : sqrt (x * x + z * z) * sqrt (x * x + z * z) = x * x + z * z)
      by (apply sqrt_sqrt; nra).
    assert (Hxx : Rabs x * Rabs x = x * x)
      by (rewrite <- Rabs_mult; apply Rabs_right; nra).
    unfold Rsqr.
    replace (sqrt (x * x + z * z) / Rabs x * (sqrt (x * x + z * z) / Rabs x))
      with ((sqrt (x * x + z * z) * sqrt (x * x + z * z)) / (Rabs x * Rabs x))
      by (field; lra).
    rewrite Hs, Hxx. field. exact Hx.
Qed.

(** [Math.cos(Math.atan2(z, x))] and [Math.sin(Math.atan2(z, x))] are the
    coordinates of the unit vector along [(x, z)]. *)
Lemma cos_sin_atan2 x z :
  (x <> 0 \/ z <> 0) ->
  cos (atan2 z x) = x / sqrt (x * x + z * z) /\
  sin (atan2 z x) = z / sqrt (x * x + z * z).
Proof.
  intros Hnz.
  assert (HS : 0 < sqrt (x * x + z * z))
    by (apply sqrt_lt_R0; destruct Hnz; nra).
  unfold atan2.
  destruct (Rlt_dec 0 x) as [Hpos | Hpos].
  - rewrite cos_atan, sin_atan, sqrt_one_plus_ratio by lra.
    rewrite Rabs_right by lra. split; field; lra.
  - destruct (Rlt_dec x 0) as [Hneg | Hneg].
    + assert (Hc : cos (atan (z / x)) = - x / sqrt (x * x + z * z)).
      { rewrite cos_atan, sqrt_one_plus_ratio by lra.
        rewrite Rabs_left by lra. field; lra. }
      assert (Hsn : sin (atan (z / x)) = - z / sqrt (x * x + z * z)).
      { rewrite sin_atan, sqrt_one_plus_ratio by lra.
        rewrite Rabs_left by lra. field; lra. }
      destruct (Rle_dec 0 z).
      * rewrite neg_cos, neg_sin, Hc, Hsn. split; field; lra.
      * rewrite cos_minus, sin_minus, cos_PI, sin_PI, Hc, Hsn.
        split; field; lra.
    + assert (Hx0 : x = 0) by lra. subst x.
      destruct (Rlt_dec 0 z) as [Hz | Hz].
      * replace (0 * 0 + z * z) with (z * z) by ring.
        rewrite sqrt_square by lra. rewrite cos_PI2, sin_PI2.
        split; field; lra.
      * destruct (Rlt_dec z 0) as [Hz' | Hz'].
        -- replace (0 * 0 + z * z) with ((- z) * (- z)) by ring.
           rewrite sqrt_square by lra. rewrite cos_neg, sin_neg, cos_PI2, sin_PI2.
           split; field; lra.
        -- exfalso. destruct Hnz; lra.
Qed.

(** [Math.atan2] only depends on the direction of its argument. *)
Lemma atan2_scale k x z :
  0 < k -> atan2 (k * z) (k * x) = atan2 z x.
Proof.
  intros Hk.
  assert (Hr : x <> 0 -> k * z / (k * x) = z / x) by (intros; field; lra).
  unfold atan2.
  destruct (Rlt_dec 0 (k * x)); destruct (Rlt_dec 0 x); try (exfalso; nra).
  - rewrite Hr by lra. reflexivity.
  - destruct (Rlt_dec (k * x) 0); destruct (Rlt_dec x 0); try (exfalso; nra).
    + rewrite Hr by lra.
      destruct (Rle_dec 0 (k * z)); destruct (Rle_dec 0 z);
        try (exfalso; nra); reflexivity.
    + destruct (Rlt_dec 0 (k * z)); destruct (Rlt_dec 0 z);
        try (exfalso; nra); [reflexivity |].
      destruct (Rlt_dec (k * z) 0); destruct (Rlt_dec z 0);
        try (exfalso; nra); reflexivity.
Qed.

(** C5: when the integrated position lies further than R = 100 from the
    origin horizontally, the clamped position lies exactly on the circle of
    radius 100, on the same ray from the origin: its horizontal coordinates
    are the original ones scaled by the positive factor [100 / dist], its
    [Math.atan2] angle is unchanged, and its height is untouched. (The
    boundary exists in this variant of [Player.update]; the variants in
    src/Player.js have no boundary.) *)
Theorem boundary_clamp_onto_circle q :
  100 < horizontal_dist q ->
  let q' := clamp_world_boundary q in
  horizontal_dist q' = 100 /\
  0 < 100 / horizontal_dist q /\
  vx q' = 100 / horizontal_dist q * vx q /\
  vz q' = 100 / horizontal_dist q * vz q /\
  atan2 (vz q') (vx q') = atan2 (vz q) (vx q) /\
  vy q' = vy q.
Proof.
  intros Hd q'. unfold q', clamp_world_boundary.
  destruct (Rlt_dec 100 (horizontal_dist q)) as [_ | n]; [| contradiction].
  set (d := horizontal_dist q) in *.
  assert (Hdd : d * d = vx q * vx q + vz q * vz q)
    by (unfold d, horizontal_dist; apply sqrt_sqrt; nra).
  assert (Hnz : vx q <> 0 \/ vz q <> 0).
  { destruct (Req_dec_T (vx q) 0) as [Ex | Ex]; [| left; exact Ex].
    destruct (Req_dec_T (vz q) 0) as [Ez | Ez]; [| right; exact Ez].
    exfalso. rewrite Ex, Ez in Hdd. nra. }
  destruct (cos_sin_atan2 (vx q) (vz q) Hnz) as [Hc Hs].
  fold (horizontal_dist q) in Hc, Hs. fold d in Hc, Hs.
  simpl. rewrite Hc, Hs.
  assert (Ex : vx q / d * 100 = 100 / d * vx q) by (field; lra).
  assert (Ez : vz q / d * 100 = 100 / d * vz q) by (field; lra).
  rewrite Ex, Ez.
  split.
  - unfold horizontal_dist; simpl.
    replace (100 / d * vx q * (100 / d * vx q) + 100 / d * vz q * (100 / d * vz q))
      with ((100 * 100) * (vx q * vx q + vz q * vz q) / (d * d))
      by (field; lra).
    rewrite <- Hdd.
    replace (100 * 100 * (d * d) / (d * d)) with (100 * 100) by (field; lra).
    apply sqrt_square; lra.
  - split; [apply Rdiv_lt_0_compat; lra |].
    split; [reflexivity |]. split; [reflexivity |].
    split; [apply atan2_scale; apply Rdiv_lt_0_compat; lra | reflexivity].
Qed.

Lemma boundary_clamp_onto_circle_witness :
  horizontal_dist (clamp_world_boundary (Vec3 200 (17 / 10) 0)) = 100.
Proof.
  assert (Hd : 100 < horizontal_dist (Vec3 200 (17 / 10) 0)).
  { unfold horizontal_dist; simpl.
    replace (200 * 200 + 0 * 0) with (200 * 200) by ring.
    rewrite sqrt_square; lra. }
  exact (proj1 (boundary_clamp_onto_circle _ Hd)).
Defined.

(** ** C6 *)

(** The same frame with the jump key released. *)
Definition release_jump (f : frame) : frame :=
  let k := pressed f in
  Frame (isLocked f)
    (Keys (forward k) (backward k) (left k) (right k) false (shift k))
    (cam_dir f) (cam_up f).

Lemma onGround_gravity_phase delta p :
  onGround (gravity_phase delta p) = onGround p.
Proof. reflexivity. Qed.

Lemma onGround_crouch_slide_phase k p :
  onGround (fst (crouch_slide_phase k p)) = onGround p.
Proof.
  unfold crouch_slide_phase. destruct (shift k); [| reflexivity].
  destruct (isCrouching p); [reflexivity |]. simpl.
  destruct (_ && _ && _); reflexivity.
Qed.

Lemma onGround_slide_update_phase delta p :
  onGround (slide_update_phase delta p) = onGround p.
Proof.
  unfold slide_update_phase. destruct (isSliding p); [| reflexivity].
  destruct (Rle_dec _ _); reflexivity.
Qed.

Lemma onGround_friction_phase delta p :
  onGround (friction_phase delta p) = onGround p.
Proof.
  unfold friction_phase. destruct (onGround p) eqn:E; exact E.
Qed.

Lemma onGround_accel_phase f d delta p :
  onGround (accel_phase f d delta p) = onGround p.
Proof. unfold accel_phase. destruct (_ || _); reflexivity. Qed.

Lemma jump_phase_airborne k p : onGround p = false -> jump_phase k p = p.
Proof. intros H. unfold jump_phase. rewrite H, andb_false_r. reflexivity. Qed.

Lemma jump_phase_released k p : jump k = false -> jump_phase k p = p.
Proof. intros H. unfold jump_phase. rewrite H. reflexivity. Qed.

(** While airborne, [update] with the jump key held computes the same
    tick as with it released. *)
Lemma update_airborne_release_jump f delta p :
  onGround p = false -> update f delta p = update (release_jump f) delta p.
Proof.
  intros Hg. destruct (isLocked f) eqn:Hl.
  - rewrite (update_locked _ _ _ Hl).
    assert (Hl' : isLocked (release_jump f) = true) by exact Hl.
    rewrite (update_locked _ _ _ Hl').
    destruct f as [l [fw bw le ri j sh] cd cu]. cbv zeta. simpl pressed.
    unfold release_jump; simpl.
    replace (crouch_slide_phase (Keys fw bw le ri false sh))
      with (crouch_slide_phase (Keys fw bw le ri j sh)) by reflexivity.
    destruct (crouch_slide_phase (Keys fw bw le ri j sh)
                (gravity_phase delta (set_gun_visible true p))) as [p2 th] eqn:E.
    assert (Hg2 : onGround p2 = false).
    { replace p2 with (fst (crouch_slide_phase (Keys fw bw le ri j sh)
                          (gravity_phase delta (set_gun_visible true p))))
        by (rewrite E; reflexivity).
      rewrite onGround_crouch_slide_phase. exact Hg. }
    rewrite (jump_phase_released (Keys fw bw le ri false sh)) by reflexivity.
    rewrite jump_phase_airborne
      by (rewrite onGround_accel_phase, onGround_friction_phase,
                  onGround_slide_update_phase; exact Hg2).
    reflexivity.
  - rewrite (update_unlocked _ _ _ Hl).
    assert (Hl' : isLocked (release_jump f) = false) by exact Hl.
    rewrite (update_unlocked _ _ _ Hl'). reflexivity.
Qed.

(** C6 (as amended): [Player.update] has no wall probe and no wall jump;
    it reads no scene geometry, so whatever walls surround the player, jump
    input while Airborne has no effect: the tick is the one computed with
    the jump key released (gravity keeps acting on the vertical velocity). *)
Theorem airborne_jump_input_ignored f delta p :
  onGround p = false ->
  update f delta p = update (release_jump f) delta p.
Proof. apply update_airborne_release_jump. Qed.

Definition jump_keys : keys := Keys false false false false true false.

(** A player in the air at height 5, at rest. *)
Definition airborne_at_rest : player :=
  Player (Vec3 0 5 0) (Vec3 0 0 0) false false false 0 (Vec3 0 0 0) true.

Lemma airborne_jump_ignored_witness :
  onGround airborne_at_rest = false /\
  update (Frame true jump_keys (Vec3 0 0 (-1)) up) (1 / 10) airborne_at_rest =
  update idle_frame (1 / 10) airborne_at_rest.
Proof.
  assert (H : onGround airborne_at_rest = false) by reflexivity.
  split; [exact H |].
  exact (airborne_jump_input_ignored (Frame true jump_keys (Vec3 0 0 (-1)) up)
           (1 / 10) airborne_at_rest H).
Defined.

(** C6 (counterexample): airborne at height 5 with the jump key held, the
    vertical velocity after a 0.1 s tick is [-3.6] (gravity only): it is not
    [jumpForce] times any positive fraction. *)
Lemma airborne_jump_no_impulse :
  vy (velocity (update (Frame true jump_keys (Vec3 0 0 (-1)) up) (1 / 10)
                  airborne_at_rest)) = - 18 / 5 /\
  ~ (exists fraction, 0 < fraction /\
       vy (velocity (update (Frame true jump_keys (Vec3 0 0 (-1)) up) (1 / 10)
                       airborne_at_rest)) = jumpForce * fraction).
Proof.
  assert (E : vy (velocity (update (Frame true jump_keys (Vec3 0 0 (-1)) up)
                             (1 / 10) airborne_at_rest)) = - 18 / 5).
  { rewrite (update_airborne_release_jump
               (Frame true jump_keys (Vec3 0 0 (-1)) up) (1 / 10)
               airborne_at_rest eq_refl).
    change (release_jump (Frame true jump_keys (Vec3 0 0 (-1)) up))
      with idle_frame.
    rewrite (update_locked idle_frame (1 / 10) airborne_at_rest eq_refl).
    cbv zeta.
    rewrite (crouch_slide_no_shift (pressed idle_frame) _ eq_refl).
    destruct (input_direction_none (pressed idle_frame)
                eq_refl eq_refl eq_refl eq_refl) as [Dx Dz].
    rewrite (accel_phase_no_input _ _ _ _ Dx Dz).
    rewrite (jump_phase_released (pressed idle_frame) _ eq_refl).
    unfold move_phase. rewrite clamp_world_boundary_y.
    simpl. destruct (Rlt_dec _ _) as [Hlt | _].
    - exfalso. unfold gravity in Hlt. lra.
    - simpl. unfold gravity. lra. }
  split; [exact E |].
  intros (fraction & Hf & Hv). rewrite E in Hv. unfold jumpForce in Hv. lra.
Qed.

(** ** C7 *)

Lemma accel_phase_velocity_only f d delta p :
  accel_phase f d delta p = set_velocity (velocity (accel_phase f d delta p)) p.
Proof. unfold accel_phase. destruct (_ || _); [reflexivity | destruct p; reflexivity]. Qed.

Lemma friction_phase_velocity_only delta p :
  friction_phase delta p = set_velocity (velocity (friction_phase delta p)) p.
Proof. unfold friction_phase. destruct (onGround p); [reflexivity | destruct p; reflexivity]. Qed.

(** The crouch and slide flags after a locked tick, in terms of the state
    after the crouch and slide-timer steps. *)
Lemma update_locked_flags f delta p :
  isLocked f = true ->
  let p3 := slide_update_phase delta
              (fst (crouch_slide_phase (pressed f)
                      (gravity_phase delta (set_gun_visible true p)))) in
  isSliding (update f delta p) =
    isSliding p3 && negb (jump (pressed f) && onGround p) /\
  slideTimer (update f delta p) = slideTimer p3 /\
  isCrouching (update f delta p) = isCrouching p3 /\
  slideDirection (update f delta p) = slideDirection p3.
Proof.
  intros Hl p3. unfold p3. rewrite (update_locked _ _ _ Hl). cbv zeta.
  destruct (crouch_slide_phase (pressed f)
              (gravity_phase delta (set_gun_visible true p))) as [p2 th] eqn:E.
  assert (G : onGround (slide_update_phase delta p2) = onGround p).
  { rewrite onGround_slide_update_phase.
    replace p2 with (fst (crouch_slide_phase (pressed f)
                            (gravity_phase delta (set_gun_visible true p))))
      by (rewrite E; reflexivity).
    rewrite onGround_crouch_slide_phase. reflexivity. }
  simpl fst.
  rewrite accel_phase_velocity_only, friction_phase_velocity_only.
  unfold jump_phase. simpl onGround. rewrite G.
  destruct (jump (pressed f) && onGround p); simpl negb;
    [rewrite andb_false_r | rewrite andb_true_r];
    unfold move_phase; destruct (Rlt_dec _ _); simpl;
    repeat split; reflexivity.
Qed.

(** On a tick with crouch held while already crouching, the crouch step
    leaves the player as it is. *)
Lemma crouch_slide_already_crouching k q :
  shift k = true -> isCrouching q = true ->
  crouch_slide_phase k q = (q, 1).
Proof.
  intros Hs Hc. unfold crouch_slide_phase. rewrite Hs, Hc.
  destruct q; simpl in Hc; subst; reflexivity.
Qed.

(** The slide trigger of the crouch step. *)
Lemma crouch_slide_trigger k q :
  shift k = true -> isCrouching q = false -> onGround q = true ->
  12 < horizontalSpeed (velocity q) -> isSliding q = false ->
  let u := normalize (Vec3 (vx (velocity q)) 0 (vz (velocity q))) in
  crouch_slide_phase k q =
  (set_isCrouching true
     (set_velocity (addScaled (velocity q) u 18)
        (set_slideDirection u (set_slideTimer (1 / 2) (set_isSliding true q)))),
   1).
Proof.
  intros Hs Hc Hg Hv Hsl u. unfold crouch_slide_phase. rewrite Hs, Hc, Hg, Hsl.
  destruct (Rlt_dec 12 (horizontalSpeed (velocity q))) as [_ | n];
    [reflexivity | contradiction].
Qed.

(** Sum of the frame times of a run of ticks. *)
Definition elapsed (ts : list (frame * R)) : R := fold_right Rplus 0 (map snd ts).

(** Ticks that keep the controls locked and crouch held. *)
Definition crouch_held (ts : list (frame * R)) : Prop :=
  Forall (fun t => isLocked (fst t) = true /\ shift (pressed (fst t)) = true) ts.

(** A slide started while crouching ends once its timer is used up, as long
    as crouch stays held. *)
Lemma slide_expires_while_crouching ts p :
  crouch_held ts -> isCrouching p = true ->
  (isSliding p = true -> 0 < slideTimer p) ->
  (isSliding p = false \/ slideTimer p <= elapsed ts) ->
  isSliding (run ts p) = false.
Proof.
  revert p. induction ts as [| [f delta] ts IH]; intros p Hts Hc Hinv Hcase; simpl.
  - destruct Hcase as [H | H]; [exact H |].
    destruct (isSliding p) eqn:E; [| reflexivity].
    specialize (Hinv eq_refl). unfold elapsed in H. simpl in H. lra.
  - inversion Hts as [| ? ? [Hl Hs] Hrest]; subst. simpl in Hl, Hs.
    destruct (update_locked_flags f delta p Hl) as (Hsl & Htm & Hcr & _).
    rewrite (crouch_slide_already_crouching (pressed f)
               (gravity_phase delta (set_gun_visible true p)) Hs Hc) in Hsl, Htm, Hcr.
    simpl fst in Hsl, Htm, Hcr.
    unfold slide_update_phase in Hsl, Htm, Hcr. simpl in Hsl, Htm, Hcr.
    revert Hsl Htm Hcr.
    destruct (isSliding p) eqn:E;
      [destruct (Rle_dec (slideTimer p - delta) 0) as [Hle | Hgt] |];
      simpl; intros Hsl Htm Hcr; rewrite ?E in Hsl;
      (apply IH; [exact Hrest | rewrite Hcr; exact Hc | rewrite Hsl, Htm
                 | rewrite Hsl, Htm]); simpl.
    + discriminate.
    + left; reflexivity.
    + intros _. lra.
    + destruct Hcase as [H | H]; [discriminate |].
      destruct (negb _); [right | left; reflexivity].
      unfold elapsed in H |- *. simpl in H. lra.
    + discriminate.
    + left; reflexivity.
Qed.

Lemma normalize_horizontal v :
  12 < horizontalSpeed v ->
  normalize (Vec3 (vx v) 0 (vz v)) =
  Vec3 (vx v / horizontalSpeed v) 0 (vz v / horizontalSpeed v).
Proof.
  intros H. unfold normalize, length; simpl.
  replace (vx v * vx v + 0 * 0 + vz v * vz v) with (vx v * vx v + vz v * vz v)
    by ring.
  fold (horizontalSpeed v).
  destruct (Req_dec_T (horizontalSpeed v) 0) as [E | _]; [lra |].
  f_equal. unfold Rdiv. ring.
Qed.

(** The velocity after the acceleration step, whether or not a movement
    key is held (with no key the direction is zero and both terms vanish). *)
Lemma accel_phase_velocity_formula f d delta q :
  let c := cam_dir f in
  let camDir := normalize (Vec3 (vx c) 0 (vz c)) in
  let camSide := normalize (cross (cam_up f) camDir) in
  let accel0 := if onGround q then 160 else 100 in
  let accel := if isCrouching q && negb (isSliding q) then accel0 * (4 / 10)
               else accel0 in
  vx (velocity (accel_phase f d delta q)) =
    vx (velocity q) + vx camDir * (vz d * accel * delta) +
    vx camSide * (- vx d * accel * delta) /\
  vz (velocity (accel_phase f d delta q)) =
    vz (velocity q) + vz camDir * (vz d * accel * delta) +
    vz camSide * (- vx d * accel * delta).
Proof.
  cbv zeta. unfold accel_phase.
  destruct (Req_dec_T (vx d) 0) as [Ex | Ex];
    destruct (Req_dec_T (vz d) 0) as [Ez | Ez]; cbn [negb orb];
    unfold set_velocity, addScaled; cbn [velocity vx vz];
    try (rewrite Ex); try (rewrite Ez); split; ring.
Qed.

(** A tick on which crouch is newly pressed on the ground above 12 units/s,
    the jump key released; movement keys may be held. *)
Lemma slide_trigger_tick f delta p :
  isLocked f = true -> shift (pressed f) = true -> jump (pressed f) = false ->
  isCrouching p = false -> onGround p = true -> isSliding p = false ->
  12 < horizontalSpeed (velocity p) -> 0 < delta < 1 / 2 ->
  let v := velocity p in
  let p' := update f delta p in
  let d := input_direction (pressed f) in
  let camDir := normalize (Vec3 (vx (cam_dir f)) 0 (vz (cam_dir f))) in
  let camSide := normalize (cross (cam_up f) camDir) in
  isSliding p' = true /\ slideTimer p' = 1 / 2 - delta /\
  isCrouching p' = true /\
  slideDirection p' = Vec3 (vx v / horizontalSpeed v) 0 (vz v / horizontalSpeed v) /\
  vx (velocity p') = (1 + (18 + 35 * delta) / horizontalSpeed v) * (1 - 1 / 2 * delta) * vx v
                     + vx camDir * (vz d * 160 * delta) + vx camSide * (- vx d * 160 * delta) /\
  vz (velocity p') = (1 + (18 + 35 * delta) / horizontalSpeed v) * (1 - 1 / 2 * delta) * vz v
                     + vz camDir * (vz d * 160 * delta) + vz camSide * (- vx d * 160 * delta).
Proof.
  intros Hl Hs Hj Hc Hg Hsl Hv Hd v p' d camDir camSide.
  assert (Hv' : 12 < horizontalSpeed (velocity (gravity_phase delta (set_gun_visible true p))))
    by exact Hv.
  pose proof (crouch_slide_trigger (pressed f)
                (gravity_phase delta (set_gun_visible true p)) Hs Hc Hg Hv' Hsl) as T.
  cbv zeta in T.
  rewrite (normalize_horizontal _ Hv') in T. simpl velocity in T.
  assert (Hnot : ~ (1 / 2 - delta <= 0)) by lra.
  destruct (update_locked_flags f delta p Hl) as (Fs & Ft & Fc & Fd).
  rewrite T in Fs, Ft, Fc, Fd. simpl fst in Fs, Ft, Fc, Fd.
  unfold slide_update_phase in Fs, Ft, Fc, Fd. simpl in Fs, Ft, Fc, Fd.
  destruct (Rle_dec (1 / 2 - delta) 0) as [Hle | _]; [contradiction |].
  simpl in Fs, Ft, Fc, Fd. rewrite Hj in Fs. simpl in Fs.
  assert (Vel : vx (velocity p') =
                  (vx v + vx v / horizontalSpeed v * 18 +
                   vx v / horizontalSpeed v * (35 * delta)) * (1 - 1 / 2 * delta)
                  + vx camDir * (vz d * 160 * delta) + vx camSide * (- vx d * 160 * delta) /\
                vz (velocity p') =
                  (vz v + vz v / horizontalSpeed v * 18 +
                   vz v / horizontalSpeed v * (35 * delta)) * (1 - 1 / 2 * delta)
                  + vz camDir * (vz d * 160 * delta) + vz camSide * (- vx d * 160 * delta)).
  { unfold p'. rewrite (update_locked _ _ _ Hl). cbv zeta. rewrite T.
    rewrite (proj1 (move_phase_velocity_xz _ _ _)),
            (proj2 (move_phase_velocity_xz _ _ _)).
    rewrite (proj1 (jump_phase_velocity_xz _ _)),
            (proj2 (jump_phase_velocity_xz _ _)).
    rewrite (proj1 (accel_phase_velocity_formula _ _ _ _)),
            (proj2 (accel_phase_velocity_formula _ _ _ _)).
    match goal with |- context [isCrouching ?Q && negb (isSliding ?Q)] =>
      set (Q0 := Q) end.
    assert (HQ : vx (velocity Q0) =
                   (vx v + vx v / horizontalSpeed v * 18 +
                    vx v / horizontalSpeed v * (35 * delta)) * (1 - 1 / 2 * delta) /\
                 vz (velocity Q0) =
                   (vz v + vz v / horizontalSpeed v * 18 +
                    vz v / horizontalSpeed v * (35 * delta)) * (1 - 1 / 2 * delta) /\
                 onGround Q0 = true /\ isCrouching Q0 = true /\ isSliding Q0 = true).
    { unfold Q0, friction_phase, slide_update_phase. simpl.
      destruct (Rle_dec (1 / 2 - delta) 0) as [Hle | _]; [contradiction |].
      simpl. rewrite Hg. unfold frictionFactor; simpl.
      repeat split; reflexivity || exact Hg. }
    destruct HQ as (Qx & Qz & Qg & Qc & Qs).
    rewrite Qx, Qz, Qg, Qc, Qs. cbn [andb negb].
    unfold d, camSide, camDir. split; reflexivity. }
  destruct Vel as [Vx Vz].
  assert (HS : 0 < horizontalSpeed v) by (unfold v; lra).
  split; [exact Fs |]. split; [exact Ft |]. split; [exact Fc |].
  split; [exact Fd |].
  split; [rewrite Vx; field; lra | rewrite Vz; field; lra].
Qed.

(** A tick with crouch held by a player already crouching and not
    sliding starts no slide and leaves the slide timer as it was. *)
Lemma held_crouch_no_slide_tick f delta q :
  isLocked f = true -> shift (pressed f) = true ->
  isCrouching q = true -> isSliding q = false ->
  isSliding (update f delta q) = false /\ slideTimer (update f delta q) = slideTimer q.
Proof.
  intros Hl Hs Hc Hsl.
  destruct (update_locked_flags f delta q Hl) as (Fs & Ft & _).
  rewrite (crouch_slide_already_crouching (pressed f)
             (gravity_phase delta (set_gun_visible true q)) Hs Hc) in Fs, Ft.
  simpl fst in Fs, Ft. unfold slide_update_phase in Fs, Ft.
  rewrite Fs, Ft. destruct q as [pos v g c sl t sd gv]; simpl in Hsl |- *.
  subst sl. split; reflexivity.
Qed.

(** A player crouching on the floor (crouch already held on the previous
    tick) and moving along +x at 15 units/s. *)
Definition crouch_frame : frame :=
  Frame true (Keys false false false false false true) (Vec3 0 0 (-1)) up.
Definition crouched_at_15 : player :=
  Player (Vec3 0 1 0) (Vec3 15 0 0) true true false 0 (Vec3 0 0 0) true.

Lemma horizontalSpeed_15 : horizontalSpeed (Vec3 15 0 0) = 15.
Proof.
  unfold horizontalSpeed; simpl.
  replace (15 * 15 + 0 * 0) with (15 * 15) by ring. apply sqrt_square. lra.
Qed.

(** C7 (counterexample): the slide is triggered only on the tick where
    crouch goes from released to held ([!this.isCrouching]); a grounded
    player at 15 units/s, not sliding, holding crouch since the previous
    tick, does not start sliding. *)
Lemma held_crouch_does_not_slide :
  onGround crouched_at_15 = true /\ isSliding crouched_at_15 = false /\
  shift (pressed crouch_frame) = true /\
  12 < horizontalSpeed (velocity crouched_at_15) /\
  isSliding (update crouch_frame (1 / 60) crouched_at_15) = false.
Proof.
  split; [reflexivity |]. split; [reflexivity |]. split; [reflexivity |].
  split; [simpl; rewrite horizontalSpeed_15; lra |].
  destruct (update_locked_flags crouch_frame (1 / 60) crouched_at_15 eq_refl)
    as (Fs & _).
  rewrite (crouch_slide_already_crouching (pressed crouch_frame)
             (gravity_phase (1 / 60) (set_gun_visible true crouched_at_15))
             eq_refl eq_refl) in Fs.
  exact Fs.
Qed.

(** C7 (as amended): on a tick where the player is Grounded above 12 units/s,
    not sliding, and crouch is newly pressed (not yet crouching; the jump key
    released; [delta < 0.5]; movement keys may be held), the player enters
    Sliding: the slide timer is armed at 0.5 s and already decremented by
    [delta] on that tick, the velocity receives a boost of 18 plus the slide
    push [35 * delta] along the current horizontal direction, the friction
    factor drops from 7 to 0.5 (applied to the boosted velocity), and a held
    movement key adds the ground acceleration [160 * delta] along the
    flattened camera axes, without the crouch-walk reduction. Once the slide
    time has elapsed with crouch still held, Sliding is false and the
    friction factor is back to 7. If crouch was already held (the player is
    already crouching), no slide starts and the slide timer is not armed,
    whatever the speed. *)
Theorem slide_on_crouch_press f delta p :
  isLocked f = true -> shift (pressed f) = true -> jump (pressed f) = false ->
  isCrouching p = false -> onGround p = true -> isSliding p = false ->
  12 < horizontalSpeed (velocity p) -> 0 < delta < 1 / 2 ->
  let v := velocity p in
  let p' := update f delta p in
  let d := input_direction (pressed f) in
  let camDir := normalize (Vec3 (vx (cam_dir f)) 0 (vz (cam_dir f))) in
  let camSide := normalize (cross (cam_up f) camDir) in
  (isSliding p' = true /\ slideTimer p' = 1 / 2 - delta /\
   frictionFactor p' = 1 / 2 /\ frictionFactor p = friction /\
   slideDirection p' = Vec3 (vx v / horizontalSpeed v) 0 (vz v / horizontalSpeed v) /\
   vx (velocity p') = (1 + (18 + 35 * delta) / horizontalSpeed v) * (1 - 1 / 2 * delta) * vx v
                      + vx camDir * (vz d * 160 * delta) + vx camSide * (- vx d * 160 * delta) /\
   vz (velocity p') = (1 + (18 + 35 * delta) / horizontalSpeed v) * (1 - 1 / 2 * delta) * vz v
                      + vz camDir * (vz d * 160 * delta) + vz camSide * (- vx d * 160 * delta)) /\
  (forall ts, crouch_held ts -> 1 / 2 <= delta + elapsed ts ->
   isSliding (run ts p') = false /\ frictionFactor (run ts p') = friction) /\
  (forall f2 delta2 q, isLocked f2 = true -> shift (pressed f2) = true ->
   isCrouching q = true -> isSliding q = false ->
   isSliding (update f2 delta2 q) = false /\ slideTimer (update f2 delta2 q) = slideTimer q).
Proof.
  intros Hl Hs Hj Hc Hg Hsl Hv Hd v p' d camDir camSide.
  destruct (slide_trigger_tick f delta p Hl Hs Hj Hc Hg Hsl Hv Hd)
    as (Fs & Ft & Fc & Fd & Vx & Vz).
  fold p' in Fs, Ft, Fc, Fd, Vx, Vz.
  split; [| split].
  - unfold frictionFactor. rewrite Fs, Hsl.
    repeat split; assumption || reflexivity.
  - intros ts Hts He.
    assert (Hend : isSliding (run ts p') = false).
    { apply slide_expires_while_crouching; [exact Hts | exact Fc | |].
      - intros _. rewrite Ft. lra.
      - right. rewrite Ft. lra. }
    split; [exact Hend |]. unfold frictionFactor. rewrite Hend. reflexivity.
  - exact held_crouch_no_slide_tick.
Qed.

(** A standing player on the floor moving along +x at 15 units/s. *)
Definition standing_at_15 : player :=
  Player (Vec3 0 (17 / 10) 0) (Vec3 15 0 0) true false false 0 (Vec3 0 0 0) true.

(** Crouch pressed together with the forward key. *)
Definition forward_crouch_frame : frame :=
  Frame true (Keys true false false false false true) (Vec3 0 0 (-1)) up.

Lemma slide_on_crouch_press_witness :
  isSliding (update forward_crouch_frame (1 / 60) standing_at_15) = true.
Proof.
  assert (Hv : 12 < horizontalSpeed (velocity standing_at_15))
    by (simpl; rewrite horizontalSpeed_15; lra).
  assert (Hd : 0 < 1 / 60 < 1 / 2) by lra.
  exact (proj1 (proj1 (slide_on_crouch_press forward_crouch_frame (1 / 60) standing_at_15
    eq_refl eq_refl eq_refl eq_refl eq_refl eq_refl Hv Hd))).
Defined.

Close Scope R_scope.
End KinematicsFacts.

(** * Properties of the combat resolver *)
Module CombatFacts.

Import Combat.
Open Scope Z_scope.

(** The entries the loop of [shoot] passes over: anything but a target,
    and the remote mesh when no network is attached. *)
Definition skipped (network : bool) (o : object) : Prop :=
  match o with
  | TargetObj _ => False
  | RemoteMesh => network = false
  | OtherObj _ => True
  end.

Lemma scan_skips network pre rest ts :
  Forall (skipped network) pre ->
  scan network (pre ++ rest) ts = scan network rest ts.
Proof.
  induction pre as [| o pre IH]; intros H; [reflexivity |].
  inversion H as [| ? ? Ho Hpre]; subst.
  destruct o as [i | | i]; simpl in Ho |- *.
  - contradiction.
  - subst network. apply IH; exact Hpre.
  - apply IH; exact Hpre.
Qed.

Lemma hitTarget_health i ts :
  t_health (fst (hitTarget i ts) i) = t_health (ts i) - 20 /\
  (forall j, j <> i -> fst (hitTarget i ts) j = ts j) /\
  ~ In NetSendHit (snd (hitTarget i ts)).
Proof.
  unfold hitTarget, upd.
  destruct (t_health (ts i) - 20 <=? 0); simpl;
    (split; [rewrite Nat.eqb_refl; reflexivity |]);
    (split; [intros j Hj; apply Nat.eqb_neq in Hj; rewrite Hj; reflexivity |]);
    intros H; simpl in H; intuition discriminate.
Qed.

Definition all_at_100 : targets := fun _ => Target 100 1%R.
Definition eye : vec3 := Vec3 0 (17 / 10) 0.
Definition ahead : vec3 := Vec3 0 0 (-1).

(** C2 (counterexample): intersections that are neither a target nor the
    remote mesh are skipped by the loop, so an obstacle (object 0) lying in
    front of target 1 does not block the shot: the target loses 20. *)
Lemma obstacle_does_not_block :
  t_health (fst (shoot true eye ahead [OtherObj 0%nat; TargetObj 1%nat] all_at_100) 1%nat)
  = 80.
Proof. reflexivity. Qed.

(** C2 (as amended): the sorted intersections are scanned in order and
    every entry that is neither a target nor (with a network) the remote
    mesh is skipped, obstacles included; the first target or remote mesh
    met is the one that counts, whatever lies behind it. When it is a
    target, that target loses exactly 20 health once per shot, even if the
    ray meets it again further on; no other target changes and no hit
    message is sent to the peer. When it is the remote mesh (a network being
    attached), no target changes, the hitmarker is shown and exactly one
    hit message is sent, followed by the shot message. *)
Theorem shot_first_counted_entry network origin dir pre i post ts :
  Forall (skipped network) pre ->
  (let r := shoot network origin dir (pre ++ TargetObj i :: post) ts in
   t_health (fst r i) = t_health (ts i) - 20 /\
   (forall j, j <> i -> fst r j = ts j) /\
   ~ In NetSendHit (snd r)) /\
  (network = true ->
   shoot network origin dir (pre ++ RemoteMesh :: post) ts =
   (ts, [ShootSound; Tracer (Kinematics.addScaled origin dir 1) dir;
         Hitmarker; NetSendHit; NetSendShoot origin dir])).
Proof.
  intros Hpre. split.
  - cbv zeta. unfold shoot.
    rewrite (scan_skips _ _ _ _ Hpre). simpl.
    destruct (hitTarget_health i ts) as (H1 & H2 & H3).
    destruct (hitTarget i ts) as [ts' hits] eqn:E. simpl in H1, H2, H3 |- *.
    split; [exact H1 |]. split; [exact H2 |].
    intros H. destruct H as [H | [H | H]]; [discriminate | discriminate |].
    apply in_app_or in H. destruct H as [H | H]; [exact (H3 H) |].
    destruct network; simpl in H; [destruct H as [H | []]; discriminate | exact H].
  - intros Hn. subst network. unfold shoot.
    rewrite (scan_skips _ _ _ _ Hpre). reflexivity.
Qed.

Lemma shot_first_counted_entry_witness :
  t_health (fst (shoot true eye ahead ([OtherObj 0%nat] ++ TargetObj 1%nat :: [TargetObj 1%nat])
                  all_at_100) 1%nat) = 80 /\
  fst (shoot true eye ahead ([OtherObj 0%nat] ++ RemoteMesh :: [TargetObj 1%nat])
         all_at_100) = all_at_100.
Proof.
  assert (H : Forall (skipped true) [OtherObj 0%nat]) by (repeat constructor).
  destruct (shot_first_counted_entry true eye ahead [OtherObj 0%nat] 1%nat
              [TargetObj 1%nat] all_at_100 H) as [H1 H2].
  split; [exact (proj1 H1) | exact (f_equal fst (H2 eq_refl))].
Defined.

Close Scope Z_scope.
End CombatFacts.

(** * Further properties of the state sync protocol *)
Module NetworkManagerMore.

Import NetworkManager.
Open Scope Z_scope.

(** [s'] agrees with [s] on the local player: health, camera and velocity. *)
Definition same_local_player (s s' : state) : Prop :=
  health s' = health s /\ cam_pos s' = cam_pos s /\
  cam_rot_y s' = cam_rot_y s /\ velocity s' = velocity s.

(** Receiving data never transmits anything and never touches the
    connection: [onReceiveData] sends no reply, whatever the message. *)
Theorem receive_never_transmits rnd m s :
  conn (onReceiveData rnd m s) = conn s.
Proof.
  destruct m; simpl; try reflexivity.
  destruct (health s - damage <=? 0); reflexivity.
Qed.

(** Only a Hit message acts on the local player: a Move, a Shoot or an
    unrecognised message leaves the health, the camera position and yaw
    and the velocity unchanged. *)
Theorem only_hit_affects_local_player rnd m s :
  (forall d, m <> Hit d) -> same_local_player s (onReceiveData rnd m s).
Proof.
  intros Hm. unfold same_local_player.
  destruct m; simpl; try (repeat split; reflexivity).
  exfalso; exact (Hm damage eq_refl).
Qed.

Lemma only_hit_affects_local_player_witness :
  same_local_player (initial (Vec3 0 (17 / 10) 0))
    (onReceiveData (0%R, 0%R) (Shoot (Vec3 5 1 5) (Vec3 0 0 1))
       (initial (Vec3 0 (17 / 10) 0))).
Proof.
  apply only_hit_affects_local_player. intros d; discriminate.
Defined.

(** A lethal Hit respawns the player, with full health and at rest, at eye
    height in the 20 by 20 square centred on the origin, for any values
    [Math.random()] returns in [0, 1). *)
Theorem lethal_hit_respawn_area rx rz d s :
  health s - d <= 0 ->
  (0 <= rx < 1)%R -> (0 <= rz < 1)%R ->
  let s' := onReceiveData (rx, rz) (Hit d) s in
  health s' = 100 /\ velocity s' = Vec3 0 0 0 /\
  vy (cam_pos s') = (17 / 10)%R /\
  (-10 <= vx (cam_pos s') < 10)%R /\ (-10 <= vz (cam_pos s') < 10)%R /\
  conn s' = conn s.
Proof.
  intros H Hx Hz. simpl.
  destruct (Z.leb_spec (health s - d) 0); [| lia].
  simpl; repeat split; try reflexivity; lra.
Qed.

Lemma lethal_hit_respawn_area_witness :
  health (onReceiveData (1 / 2, 1 / 4)%R (Hit 20)
           (set_health 20 (initial (Vec3 0 (17 / 10) 0)))) = 100.
Proof.
  assert (H1 : health (set_health 20 (initial (Vec3 0 (17 / 10) 0))) - 20 <= 0)
    by (simpl; lia).
  assert (H2 : (0 <= 1 / 2 < 1)%R) by lra.
  assert (H3 : (0 <= 1 / 4 < 1)%R) by lra.
  exact (proj1 (lethal_hit_respawn_area _ _ _ _ H1 H2 H3)).
Defined.

Close Scope Z_scope.
End NetworkManagerMore.

(** * Further properties of the player controller *)
Module KinematicsMore.

Import Kinematics KinematicsFacts.
Open Scope R_scope.

(** ** Phase lemmas *)

Lemma position_gravity_phase delta p :
  position (gravity_phase delta p) = position p.
Proof. reflexivity. Qed.

Lemma position_crouch_slide_phase k p :
  position (fst (crouch_slide_phase k p)) = position p.
Proof.
  unfold crouch_slide_phase. destruct (shift k); [| reflexivity].
  destruct (isCrouching p); [reflexivity |].
  destruct (_ && _ && _); reflexivity.
Qed.

Lemma position_slide_update_phase delta p :
  position (slide_update_phase delta p) = position p.
Proof.
  unfold slide_update_phase. destruct (isSliding p); [| reflexivity].
  destruct (Rle_dec _ _); reflexivity.
Qed.

Lemma position_friction_phase delta p :
  position (friction_phase delta p) = position p.
Proof. unfold friction_phase. destruct (onGround p); reflexivity. Qed.

Lemma position_accel_phase f d delta p :
  position (accel_phase f d delta p) = position p.
Proof. unfold accel_phase. destruct (_ || _); reflexivity. Qed.

Lemma position_jump_phase k p : position (jump_phase k p) = position p.
Proof. unfold jump_phase. destruct (_ && _); reflexivity. Qed.

Lemma target_height_crouch_slide_phase k p :
  snd (crouch_slide_phase k p) = if shift k then 1 else 17 / 10.
Proof. unfold crouch_slide_phase. destruct (shift k); reflexivity. Qed.

Lemma horizontal_dist_clamp q : horizontal_dist (clamp_world_boundary q) <= 100.
Proof.
  unfold clamp_world_boundary. destruct (Rlt_dec 100 (horizontal_dist q)) as [_ | H].
  - unfold horizontal_dist; simpl.
    replace (cos (atan2 (vz q) (vx q)) * 100 * (cos (atan2 (vz q) (vx q)) * 100) +
             sin (atan2 (vz q) (vx q)) * 100 * (sin (atan2 (vz q) (vx q)) * 100))
      with (((sin (atan2 (vz q) (vx q)))² + (cos (atan2 (vz q) (vx q)))²) * (100 * 100))
      by (unfold Rsqr; ring).
    rewrite sin2_cos2, Rmult_1_l, sqrt_square by lra. lra.
  - lra.
Qed.

(** The floor step: what [move_phase] does to the height, the Grounded flag
    and the horizontal distance. *)
Lemma move_phase_spec delta th p :
  let p' := move_phase delta th p in
  horizontal_dist (position p') <= 100 /\
  th <= vy (position p') /\
  (onGround p' = true -> vy (position p') = th /\ vy (velocity p') = 0) /\
  (vy (position p) + vy (velocity p) * delta < th -> onGround p' = true) /\
  (th <= vy (position p) + vy (velocity p) * delta ->
     onGround p' = false /\ velocity p' = velocity p /\
     vy (position p') = vy (position p) + vy (velocity p) * delta).
Proof.
  unfold move_phase.
  pose proof (horizontal_dist_clamp (addScaled (position p) (velocity p) delta)) as Hd.
  pose proof (clamp_world_boundary_y (addScaled (position p) (velocity p) delta)) as Hy.
  simpl in Hy.
  destruct (Rlt_dec (vy (clamp_world_boundary (addScaled (position p) (velocity p) delta))) th)
    as [Hl | Hl]; simpl; rewrite Hy in Hl.
  - repeat split; try lra; try discriminate.
    unfold horizontal_dist in *; simpl; exact Hd.
  - repeat split; try lra; try reflexivity; try discriminate; try exact Hd;
      try (rewrite Hy; lra); try (intros; exfalso; lra).
Qed.

Lemma isSliding_move_phase delta th p :
  isSliding (move_phase delta th p) = isSliding p.
Proof. unfold move_phase. destruct (Rlt_dec _ _); reflexivity. Qed.

Lemma onGround_jump_phase_stay k p :
  jump k = false -> onGround (jump_phase k p) = onGround p.
Proof. intros H. rewrite jump_phase_released by exact H. reflexivity. Qed.

(** A locked tick leads to the floor step with the target height of the
    crouch key, from a state at the position the tick started from. *)
Lemma update_locked_move f delta p :
  isLocked f = true ->
  exists q, update f delta p =
            move_phase delta (if shift (pressed f) then 1 else 17 / 10) q /\
            position q = position p.
Proof.
  intros Hl. rewrite (update_locked _ _ _ Hl). cbv zeta.
  pose proof (target_height_crouch_slide_phase (pressed f)
                (gravity_phase delta (set_gun_visible true p))) as Ht.
  pose proof (position_crouch_slide_phase (pressed f)
                (gravity_phase delta (set_gun_visible true p))) as Hp.
  destruct (crouch_slide_phase (pressed f)
              (gravity_phase delta (set_gun_visible true p))) as [p2 th].
  simpl in Ht, Hp. subst th.
  eexists; split; [reflexivity |].
  rewrite position_jump_phase, position_accel_phase, position_friction_phase,
    position_slide_update_phase, Hp. reflexivity.
Qed.

(** A locked tick with crouch released, written out phase by phase. *)
Lemma update_locked_no_shift f delta p :
  isLocked f = true -> shift (pressed f) = false ->
  update f delta p =
  move_phase delta (17 / 10)
    (jump_phase (pressed f)
      (accel_phase f (input_direction (pressed f)) delta
        (friction_phase delta
          (set_isSliding false (set_isCrouching false
             (gravity_phase delta (set_gun_visible true p))))))).
Proof.
  intros Hl Hs. rewrite (update_locked _ _ _ Hl). cbv zeta.
  rewrite (crouch_slide_no_shift _ _ Hs). reflexivity.
Qed.

Lemma input_direction_forward k :
  forward k = true -> backward k = false -> left k = false -> right k = false ->
  input_direction k = Vec3 0 0 1.
Proof.
  intros H1 H2 H3 H4. unfold input_direction, normalize, length.
  rewrite H1, H2, H3, H4. unfold num; simpl.
  replace ((0 - 0) * (0 - 0) + 0 * 0 + (1 - 0) * (1 - 0)) with 1 by ring.
  rewrite sqrt_1. destruct (Req_dec_T 1 0) as [E | _]; [lra |].
  f_equal; field.
Qed.

(** A player standing at the origin, at rest. *)
Definition standing_at_origin : player :=
  Player (Vec3 0 (17 / 10) 0) (Vec3 0 0 0) true false false 0 (Vec3 0 0 0) true.

Lemma horizontal_dist_origin_axis y : horizontal_dist (Vec3 0 y 0) = 0.
Proof.
  unfold horizontal_dist; simpl. replace (0 * 0 + 0 * 0) with 0 by ring.
  exact sqrt_0.
Qed.

(** ** World boundary *)

(** The world boundary is an invariant of the render loop: a player that
    starts within 100 units of the origin horizontally stays within them,
    whatever the ticks, keys, camera directions and frame times (unlocked
    ticks do not move the player, locked ones end with the clamp). *)
Theorem world_boundary_invariant ticks p :
  horizontal_dist (position p) <= 100 ->
  horizontal_dist (position (run ticks p)) <= 100.
Proof.
  revert p. induction ticks as [| [f delta] ts IH]; intros p Hp; simpl; [exact Hp |].
  apply IH. destruct (isLocked f) eqn:Hl.
  - destruct (update_locked_move f delta p Hl) as (q & -> & _).
    exact (proj1 (move_phase_spec _ _ _)).
  - rewrite (update_unlocked _ _ _ Hl). exact Hp.
Qed.

Lemma world_boundary_invariant_witness :
  horizontal_dist (position standing_at_origin) <= 100 /\
  horizontal_dist (position (run [(Frame true (Keys true false false false false false)
                                      (Vec3 0 0 (-1)) up, 1 / 60)]
                                 standing_at_origin)) <= 100.
Proof.
  assert (H : horizontal_dist (position standing_at_origin) <= 100)
    by (simpl; rewrite horizontal_dist_origin_axis; lra).
  split; [exact H | exact (world_boundary_invariant _ _ H)].
Defined.

(** ** Floor collision *)

(** After a locked tick the camera is never below the target height of the
    crouch key (1 while crouch is held, 1.7 otherwise), and a player that is
    Grounded after the tick stands exactly at that height with no vertical
    velocity. *)
Theorem floor_after_locked_tick f delta p :
  isLocked f = true ->
  let th := if shift (pressed f) then 1 else 17 / 10 in
  let p' := update f delta p in
  th <= vy (position p') /\
  (onGround p' = true -> vy (position p') = th /\ vy (velocity p') = 0).
Proof.
  intros Hl th p'. unfold p'.
  destruct (update_locked_move f delta p Hl) as (q & -> & _).
  destruct (move_phase_spec delta th q) as (_ & H1 & H2 & _).
  split; assumption.
Qed.

Lemma floor_after_locked_tick_witness :
  17 / 10 <= vy (position (update idle_frame (1 / 60) standing_at_origin)).
Proof.
  assert (H : isLocked idle_frame = true) by reflexivity.
  exact (proj1 (floor_after_locked_tick idle_frame (1 / 60) standing_at_origin H)).
Defined.

(** ** Jump *)

(** A jump from the floor: with the jump key down, crouch released, the
    player Grounded at standing height or above and a non-negative frame
    time, the tick sets the vertical velocity to [jumpForce], leaves the
    floor (not Grounded), cancels any slide and lifts the camera by
    [jumpForce * delta]. *)
Theorem ground_jump f delta p :
  isLocked f = true -> jump (pressed f) = true -> shift (pressed f) = false ->
  onGround p = true -> 17 / 10 <= vy (position p) -> 0 <= delta ->
  let p' := update f delta p in
  vy (velocity p') = jumpForce /\ onGround p' = false /\ isSliding p' = false /\
  vy (position p') = vy (position p) + jumpForce * delta.
Proof.
  intros Hl Hj Hs Hg Hy Hd p'. unfold p'.
  rewrite (update_locked_no_shift _ _ _ Hl Hs).
  set (A := accel_phase f (input_direction (pressed f)) delta
              (friction_phase delta (set_isSliding false (set_isCrouching false
                 (gravity_phase delta (set_gun_visible true p)))))).
  assert (GA : onGround A = true).
  { unfold A. rewrite onGround_accel_phase, onGround_friction_phase. exact Hg. }
  assert (PA : position A = position p).
  { unfold A. rewrite position_accel_phase, position_friction_phase. reflexivity. }
  unfold jump_phase. rewrite Hj, GA. simpl andb.
  set (J := set_isSliding false (set_onGround false
              (set_velocity (Vec3 (vx (velocity A)) jumpForce (vz (velocity A))) A))).
  assert (Hc : 17 / 10 <= vy (position J) + vy (velocity J) * delta).
  { simpl. rewrite PA. unfold jumpForce. nra. }
  destruct (move_phase_spec delta (17 / 10) J) as (_ & _ & _ & _ & H5).
  destruct (H5 Hc) as (G' & V' & Y').
  rewrite V'. split; [reflexivity |]. split; [exact G' |].
  split; [rewrite isSliding_move_phase; reflexivity |].
  rewrite Y'. simpl. rewrite PA. reflexivity.
Qed.

Lemma ground_jump_witness :
  vy (velocity (update (Frame true jump_keys (Vec3 0 0 (-1)) up) (1 / 60)
                  standing_at_origin)) = jumpForce.
Proof.
  assert (H1 : isLocked (Frame true jump_keys (Vec3 0 0 (-1)) up) = true) by reflexivity.
  assert (H2 : jump (pressed (Frame true jump_keys (Vec3 0 0 (-1)) up)) = true)
    by reflexivity.
  assert (H3 : shift (pressed (Frame true jump_keys (Vec3 0 0 (-1)) up)) = false)
    by reflexivity.
  assert (H4 : onGround standing_at_origin = true) by reflexivity.
  assert (H5 : 17 / 10 <= vy (position standing_at_origin)) by (simpl; lra).
  assert (H6 : 0 <= 1 / 60) by lra.
  exact (proj1 (ground_jump _ _ _ H1 H2 H3 H4 H5 H6)).
Defined.

(** ** Crouch release *)

(** Releasing the crouch key ends crouching and sliding on that very tick,
    whatever the slide timer still holds. *)
Theorem crouch_release_ends_slide f delta p :
  isLocked f = true -> shift (pressed f) = false ->
  isCrouching (update f delta p) = false /\ isSliding (update f delta p) = false.
Proof.
  intros Hl Hs.
  destruct (update_locked_flags f delta p Hl) as (Hsl & _ & Hcr & _).
  rewrite Hsl, Hcr, (crouch_slide_no_shift _ _ Hs). simpl.
  split; reflexivity.
Qed.

Lemma crouch_release_ends_slide_witness :
  isSliding (update idle_frame (1 / 60)
               (Player (Vec3 0 1 0) (Vec3 20 0 0) true true true (1 / 2)
                       (Vec3 1 0 0) true)) = false.
Proof.
  assert (H1 : isLocked idle_frame = true) by reflexivity.
  assert (H2 : shift (pressed idle_frame) = false) by reflexivity.
  exact (proj2 (crouch_release_ends_slide idle_frame (1 / 60) _ H1 H2)).
Defined.

(** ** Air control *)

(** There is no drag in the air: an airborne player with no movement key
    and crouch released keeps its horizontal velocity exactly over a tick
    (friction only applies on the ground). *)
Theorem no_air_drag f delta p :
  isLocked f = true ->
  forward (pressed f) = false -> backward (pressed f) = false ->
  left (pressed f) = false -> right (pressed f) = false ->
  shift (pressed f) = false -> onGround p = false ->
  vx (velocity (update f delta p)) = vx (velocity p) /\
  vz (velocity (update f delta p)) = vz (velocity p).
Proof.
  intros Hl H1 H2 H3 H4 Hs Hg.
  rewrite (update_locked_no_shift _ _ _ Hl Hs).
  destruct (input_direction_none _ H1 H2 H3 H4) as [Dx Dz].
  rewrite (accel_phase_no_input _ _ _ _ Dx Dz).
  rewrite jump_phase_airborne
    by (rewrite onGround_friction_phase; exact Hg).
  rewrite (proj1 (move_phase_velocity_xz _ _ _)),
          (proj2 (move_phase_velocity_xz _ _ _)).
  unfold friction_phase. simpl. rewrite Hg. split; reflexivity.
Qed.

Lemma no_air_drag_witness :
  vx (velocity (update idle_frame (1 / 60)
                  (Player (Vec3 0 5 0) (Vec3 10 0 0) false false false 0
                          (Vec3 0 0 0) true))) = 10.
Proof.
  exact (proj1 (no_air_drag idle_frame (1 / 60)
                  (Player (Vec3 0 5 0) (Vec3 10 0 0) false false false 0
                          (Vec3 0 0 0) true)
                  eq_refl eq_refl eq_refl eq_refl eq_refl eq_refl eq_refl)).
Defined.

(** ** Acceleration *)

(** Holding only the forward key with crouch released: after the friction
    of the ground ([1 - friction * delta], none in the air) the horizontal
    velocity gains [160 * delta] on the ground, [100 * delta] in the air,
    along the camera heading flattened onto the floor and normalised;
    [camSide] receives no share. *)
Theorem forward_acceleration f delta p :
  isLocked f = true ->
  forward (pressed f) = true -> backward (pressed f) = false ->
  left (pressed f) = false -> right (pressed f) = false ->
  shift (pressed f) = false ->
  let u := normalize (Vec3 (vx (cam_dir f)) 0 (vz (cam_dir f))) in
  let k := if onGround p then 1 - friction * delta else 1 in
  let a := if onGround p then 160 else 100 in
  vx (velocity (update f delta p)) = vx (velocity p) * k + vx u * (a * delta) /\
  vz (velocity (update f delta p)) = vz (velocity p) * k + vz u * (a * delta).
Proof.
  intros Hl H1 H2 H3 H4 Hs u k a.
  rewrite (update_locked_no_shift _ _ _ Hl Hs).
  rewrite (proj1 (move_phase_velocity_xz _ _ _)),
          (proj2 (move_phase_velocity_xz _ _ _)).
  rewrite (proj1 (jump_phase_velocity_xz _ _)),
          (proj2 (jump_phase_velocity_xz _ _)).
  rewrite (input_direction_forward _ H1 H2 H3 H4).
  unfold accel_phase. simpl vx; simpl vz.
  destruct (Req_dec_T 0 0) as [_ | n]; [| congruence].
  destruct (Req_dec_T 1 0) as [e | _]; [lra |]. simpl orb.
  unfold friction_phase, frictionFactor, k, a, u. simpl.
  destruct (onGround p) eqn:G; simpl; rewrite ?G; split; ring.
Qed.

Lemma forward_acceleration_witness :
  vz (velocity (update (Frame true (Keys true false false false false false)
                          (Vec3 0 0 (-1)) up) (1 / 10) standing_at_origin)) =
  0 * (1 - friction * (1 / 10)) +
  vz (normalize (Vec3 0 0 (-1))) * (160 * (1 / 10)).
Proof.
  exact (proj2 (forward_acceleration
                  (Frame true (Keys true false false false false false)
                     (Vec3 0 0 (-1)) up) (1 / 10) standing_at_origin
                  eq_refl eq_refl eq_refl eq_refl eq_refl eq_refl)).
Defined.

(** ** Key handling *)

(** The key codes [onKey] reacts to. *)
Definition mapped_codes : list String.string :=
  ["KeyW"; "KeyS"; "KeyA"; "KeyD"; "Space"; "ShiftLeft"; "ShiftRight"]%string.

(** Key events compose by the last one winning: a key-down or key-up event
    followed by another event of the same code leaves the flags as the
    second event alone does (so repeated key-down events are harmless and a
    key-up always releases the key), and a code outside W, S, A, D, Space
    and the two Shift keys leaves every flag unchanged. *)
Theorem onKey_last_event_wins code b b' k :
  onKey code b (onKey code b' k) = onKey code b k /\
  (~ In code mapped_codes -> onKey code b k = k).
Proof.
  split.
  - destruct k; unfold onKey;
      repeat (destruct (String.eqb _ _)); reflexivity.
  - intros Hn. destruct k. unfold onKey.
    repeat match goal with
    | |- context [String.eqb code ?c] =>
        destruct (String.eqb_spec code c) as [E | _];
          [exfalso; apply Hn; rewrite E; simpl; tauto |]
    end.
    reflexivity.
Qed.

Lemma onKey_last_event_wins_witness :
  onKey "KeyE"%string true (Keys true false false false false false) =
  Keys true false false false false false.
Proof.
  assert (H : ~ In "KeyE"%string mapped_codes)
    by (simpl; intros H; repeat (destruct H as [H | H]; [discriminate |]); exact H).
  exact (proj2 (onKey_last_event_wins "KeyE"%string true true
                  (Keys true false false false false false)) H).
Defined.

Close Scope R_scope.
End KinematicsMore.

(** * Further properties of shooting *)
Module CombatMore.

Import Combat CombatFacts.
Open Scope Z_scope.

Lemma scan_no_NetSendShoot network l ts p d :
  ~ In (NetSendShoot p d) (snd (scan network l ts)).
Proof.
  induction l as [| o l IH]; simpl; [tauto |].
  destruct o as [i | | i]; [| destruct network |]; try exact IH.
  - unfold hitTarget. destruct (_ <=? 0); simpl; intuition discriminate.
  - simpl; intuition discriminate.
Qed.

Lemma scan_offline_no_NetSendHit l ts : ~ In NetSendHit (snd (scan false l ts)).
Proof.
  induction l as [| o l IH]; simpl; [tauto |].
  destruct o as [i | | i]; try exact IH.
  exact (proj2 (proj2 (hitTarget_health i ts))).
Qed.

Lemma scan_one_target network l ts :
  exists i, (forall j, j <> i -> fst (scan network l ts) j = ts j) /\
            (t_health (fst (scan network l ts) i) = t_health (ts i) \/
             t_health (fst (scan network l ts) i) = t_health (ts i) - 20).
Proof.
  induction l as [| o l IH]; simpl.
  - exists 0%nat. split; [reflexivity | left; reflexivity].
  - destruct o as [i | | i]; [| destruct network |]; try exact IH.
    + exists i. destruct (hitTarget_health i ts) as (H1 & H2 & _).
      split; [exact H2 | right; exact H1].
    + exists 0%nat. split; [reflexivity | left; reflexivity].
Qed.

(** With a network attached, when the first entry of the ray that is a
    target or the remote mesh is the remote mesh, the shot damages no
    practice target and its effects are the sound, the tracer, the
    hitmarker, one Hit message to the peer and the Shoot message. *)
Theorem remote_hit_sends_one_hit origin dir pre post ts :
  Forall (skipped true) pre ->
  shoot true origin dir (pre ++ RemoteMesh :: post) ts =
  (ts, [ShootSound; Tracer (Kinematics.addScaled origin dir 1) dir;
        Hitmarker; NetSendHit; NetSendShoot origin dir]).
Proof.
  intros Hpre. unfold shoot. rewrite (scan_skips _ _ _ _ Hpre). reflexivity.
Qed.

Lemma remote_hit_sends_one_hit_witness :
  fst (shoot true eye ahead ([OtherObj 0%nat] ++ RemoteMesh :: [TargetObj 1%nat])
         all_at_100) = all_at_100.
Proof.
  assert (H : Forall (skipped true) [OtherObj 0%nat]) by (repeat constructor).
  exact (f_equal fst (remote_hit_sends_one_hit eye ahead [OtherObj 0%nat]
                        [TargetObj 1%nat] all_at_100 H)).
Defined.

(** Without a network, a shot never produces a network message, whatever
    the ray meets: the remote mesh is passed over like an obstacle. *)
Theorem offline_shot_sends_nothing origin dir l ts :
  ~ In NetSendHit (snd (shoot false origin dir l ts)) /\
  (forall p d, ~ In (NetSendShoot p d) (snd (shoot false origin dir l ts))).
Proof.
  unfold shoot.
  pose proof (scan_offline_no_NetSendHit l ts) as H1.
  pose proof (scan_no_NetSendShoot false l ts) as H2.
  destruct (scan false l ts) as [ts' hits]. simpl in H1, H2 |- *.
  rewrite app_nil_r. split.
  - intros [H | [H | H]]; [discriminate | discriminate | exact (H1 H)].
  - intros p d [H | [H | H]]; [discriminate | discriminate | exact (H2 p d H)].
Qed.

(** A shot changes at most one practice target, and that one loses either
    nothing or exactly 20 health; with a network it sends exactly one
    Shoot message, the last effect, carrying the camera position and the
    view direction. *)
Theorem shot_changes_at_most_one_target network origin dir l ts :
  let r := shoot network origin dir l ts in
  (exists i, (forall j, j <> i -> fst r j = ts j) /\
             (t_health (fst r i) = t_health (ts i) \/
              t_health (fst r i) = t_health (ts i) - 20)) /\
  (network = true ->
   exists hits, snd r = [ShootSound; Tracer (Kinematics.addScaled origin dir 1) dir] ++
                        hits ++ [NetSendShoot origin dir] /\
                forall p d, ~ In (NetSendShoot p d) hits).
Proof.
  intros r. unfold r, shoot.
  pose proof (scan_one_target network l ts) as H1.
  pose proof (scan_no_NetSendShoot network l ts) as H2.
  destruct (scan network l ts) as [ts' hits]. simpl in H1, H2 |- *.
  split; [exact H1 |].
  intros Hn; subst network. exists hits. split; [reflexivity | exact H2].
Qed.

Lemma shot_changes_at_most_one_target_witness :
  exists hits, snd (shoot true eye ahead [TargetObj 1%nat] all_at_100) =
  [ShootSound; Tracer (Kinematics.addScaled eye ahead 1) ahead] ++
  hits ++ [NetSendShoot eye ahead].
Proof.
  destruct (proj2 (shot_changes_at_most_one_target true eye ahead [TargetObj 1%nat]
                     all_at_100) eq_refl) as (hits & H & _).
  exists hits. exact H.
Defined.

(** A shot whose ray meets no practice target, and with a network not the
    remote mesh either, changes no target and produces only the sound, the
    tracer and, with a network, the Shoot message. *)
Theorem miss_changes_nothing network origin dir l ts :
  Forall (skipped network) l ->
  shoot network origin dir l ts =
  (ts, [ShootSound; Tracer (Kinematics.addScaled origin dir 1) dir] ++
       (if network then [NetSendShoot origin dir] else [])).
Proof.
  intros Hl. unfold shoot.
  rewrite <- (app_nil_r l), (scan_skips _ _ _ _ Hl). reflexivity.
Qed.

Lemma miss_changes_nothing_witness :
  fst (shoot false eye ahead [OtherObj 0%nat; RemoteMesh] all_at_100) = all_at_100.
Proof.
  assert (H : Forall (skipped false) [OtherObj 0%nat; RemoteMesh])
    by (repeat constructor).
  exact (f_equal fst (miss_changes_nothing false eye ahead _ all_at_100 H)).
Defined.

(** A hit schedules the reset of the target exactly when it takes the
    target's health to 0 or below (from 20 or less, including a target
    already sunk and not yet reset); such a hit sinks the target to
    [y = -5] and announces the kill, and once the reset runs the target is
    back in the state [addPracticeTargets] created it in, every other
    target as it was. *)
Theorem kill_then_reset i ts :
  (In (ScheduleTargetReset i) (snd (hitTarget i ts)) <-> t_health (ts i) <= 20) /\
  (t_health (ts i) <= 20 ->
   t_y (fst (hitTarget i ts) i) = (-5)%R /\
   In KillNotification (snd (hitTarget i ts)) /\
   resetTarget i (fst (hitTarget i ts)) i = practice_target /\
   (forall j, j <> i -> resetTarget i (fst (hitTarget i ts)) j = ts j)).
Proof.
  unfold hitTarget.
  destruct (Z.leb_spec (t_health (ts i) - 20) 0) as [Hle | Hgt]; simpl.
  - split; [split; [intros _; lia | intros _; tauto] |].
    intros _. unfold resetTarget, upd. rewrite Nat.eqb_refl.
    split; [reflexivity |]. split; [tauto |]. split; [reflexivity |].
    intros j Hj. apply Nat.eqb_neq in Hj. rewrite Hj. reflexivity.
  - split; [split; [intros H; intuition discriminate | lia] | lia].
Qed.

Lemma kill_then_reset_witness :
  resetTarget 1%nat (fst (hitTarget 1%nat (fun _ => Target 20 1%R))) 1%nat =
  practice_target.
Proof.
  destruct (kill_then_reset 1%nat (fun _ => Target 20 1%R)) as [_ H].
  assert (Hh : t_health ((fun _ : nat => Target 20 1%R) 1%nat) <= 20) by (simpl; lia).
  exact (proj1 (proj2 (proj2 (H Hh)))).
Defined.

Close Scope Z_scope.
End CombatMore.
